(** * The frame-sampling and inference-scheduling pipeline of App.js

    A shallow embedding of [src/App.js]: the model-load effect, the
    [performInference] task and the [frameProcessor] worklet, together
    with the part of the JavaScript number semantics they rely on.

    - JavaScript numbers are IEEE binary64 values: Rocq's primitive
      floats.  [Math.round] and [Number.prototype.toFixed] are given
      by their ECMAScript definitions, on the exact rational value of
      the double.
    - Effects (React state, the ref, the two shared values, the
      console, the calls posted to the JS thread) live in one record
      that is threaded through a state-and-exception monad, so that
      [try]/[catch]/[finally] keep their meaning.
    - The camera, the resize plugin and the inference engine are
      outside the repository: they are parameters of the model. *)

From Stdlib Require Import ZArith QArith Qround Qabs Qpower Bool List String Lia Lqa.
From Stdlib Require Import Uint63.
From Stdlib Require Import Floats.
Import ListNotations.

Set Warnings "-inexact-float".
Local Open Scope string_scope.
Local Open Scope Z_scope.

(** ** JavaScript numbers *)

Module JS.

(** The result of an indexed read [a[i]]: a number, or [undefined]
    when the index is out of range. *)
Definition value := option float.

Definition index (a : list float) (i : nat) : value := nth_error a i.

(** [ToNumber]: [undefined] becomes [NaN]. *)
Definition ToNumber (v : value) : float :=
  match v with
  | Some x => x
  | None => nan
  end.

(** [a > b] on numbers ([false] as soon as one side is [NaN]). *)
Definition gt (a b : float) : bool := (b <? a)%float.

(** The exact value of a finite double; [None] for [NaN] and the
    infinities. *)
Definition exact (x : float) : option Q :=
  match Prim2SF x with
  | S754_zero _ => Some 0%Q
  | S754_finite s m e =>
      Some (inject_Z (if s then Zneg m else Zpos m) * Qpower 2 e)%Q
  | S754_infinity _ | S754_nan => None
  end.

(** Nearest integer, the larger one when two are equally near. *)
Definition nearest (q : Q) : Z := Qfloor (q + (1 # 2))%Q.

(** [Math.round(x)], as the integer it returns.  [NaN] and the
    infinities are returned unchanged by [Math.round]; they are no
    integers: [None].  The sign of a zero result is dropped, [===]
    does not see it. *)
Definition Math_round (x : float) : option Z :=
  option_map nearest (exact x).

(** [Math.round(x) === 0]. *)
Definition rounds_to_zero (x : float) : bool :=
  match Math_round x with
  | Some 0 => true
  | _ => false
  end.

(** The string [x.toFixed(0)] returns: either a sign and the decimal
    digits of an integer, or (for [NaN], the infinities and
    magnitudes from 10^21 on) whatever [ToString(x)] is. *)
Inductive fixed :=
| Digits (negative : bool) (n : Z)
| ViaToString (x : float).

Definition toFixed0 (x : float) : fixed :=
  match exact x with
  | None => ViaToString x
  | Some q =>
      if Qle_bool (inject_Z (10 ^ 21)) (Qabs q) then ViaToString x
      else Digits (negb (Qle_bool 0 q)) (nearest (Qabs q))
  end.

End JS.

(** ** Data *)

Definition MODEL_FILENAME := "OptimizedIdCardOnDeviceTop1.onnx".
Definition INPUT_TENSOR_NAME := "image_buffer".
Definition CONFIDENCE_THRESHOLD : float := 0.95%float.
Definition TARGET_FPS : Z := 2.

Definition bytes := list Byte.byte.

Record Frame := {
  width : float;
  height : float;
  pixelFormat : string;
  pixels : bytes
}.

Record Rect := { x : float; y : float; rect_width : float; rect_height : float }.

Record ResizeOptions := {
  crop : Rect;
  scale : Z * Z;
  resize_pixelFormat : string;
  dataType : string
}.

Record Tensor := { tensor_type : string; tensor_data : bytes; dims : list Z }.

(** What an awaited or called collaborator does: it returns a value
    or throws an error, of which only the message is used. *)
Inductive completion (A : Type) :=
| Normal (a : A)
| Throw (message : string).
Arguments Normal {A} a.
Arguments Throw {A} message.

Inductive InferenceSession := Session (localUri : string).

(** The outputs of [session.run]: named tensors, of which only the
    [data] array is read. *)
Definition Outputs := list (string * list float).

Inductive Label := FRONT | BACK.

Record ScanResult := { label : Label; score : JS.fixed }.

(** ** The state the component's closures share *)

Record State := {
  modelStatus : string;                    (* useState("Loading...") *)
  scanResult : option ScanResult;          (* useState(null) *)
  latency : Z;                             (* useState(0) *)
  sessionRef : option InferenceSession;    (* useRef(null) *)
  isModelReady : bool;                     (* useSharedValue(false) *)
  isInferenceBusy : bool;                  (* useSharedValue(false) *)
  lastCall : option Z;                     (* runAtTargetFps' timestamp *)
  posted : list bytes;                     (* calls of runInferenceJS not yet run *)
  console : list string                    (* console.log lines, oldest first *)
}.

Definition initial : State :=
  {| modelStatus := "Loading..."; scanResult := None; latency := 0;
     sessionRef := None; isModelReady := false; isInferenceBusy := false;
     lastCall := None; posted := []; console := [] |}.

Definition with_modelStatus (v : string) (st : State) : State :=
  {| modelStatus := v; scanResult := scanResult st; latency := latency st;
     sessionRef := sessionRef st; isModelReady := isModelReady st;
     isInferenceBusy := isInferenceBusy st; lastCall := lastCall st;
     posted := posted st; console := console st |}.

Definition with_scanResult (v : option ScanResult) (st : State) : State :=
  {| modelStatus := modelStatus st; scanResult := v; latency := latency st;
     sessionRef := sessionRef st; isModelReady := isModelReady st;
     isInferenceBusy := isInferenceBusy st; lastCall := lastCall st;
     posted := posted st; console := console st |}.

Definition with_latency (v : Z) (st : State) : State :=
  {| modelStatus := modelStatus st; scanResult := scanResult st; latency := v;
     sessionRef := sessionRef st; isModelReady := isModelReady st;
     isInferenceBusy := isInferenceBusy st; lastCall := lastCall st;
     posted := posted st; console := console st |}.

Definition with_sessionRef (v : option InferenceSession) (st : State) : State :=
  {| modelStatus := modelStatus st; scanResult := scanResult st;
     latency := latency st; sessionRef := v; isModelReady := isModelReady st;
     isInferenceBusy := isInferenceBusy st; lastCall := lastCall st;
     posted := posted st; console := console st |}.

Definition with_isModelReady (v : bool) (st : State) : State :=
  {| modelStatus := modelStatus st; scanResult := scanResult st;
     latency := latency st; sessionRef := sessionRef st; isModelReady := v;
     isInferenceBusy := isInferenceBusy st; lastCall := lastCall st;
     posted := posted st; console := console st |}.

Definition with_isInferenceBusy (v : bool) (st : State) : State :=
  {| modelStatus := modelStatus st; scanResult := scanResult st;
     latency := latency st; sessionRef := sessionRef st;
     isModelReady := isModelReady st; isInferenceBusy := v;
     lastCall := lastCall st; posted := posted st; console := console st |}.

Definition with_lastCall (v : option Z) (st : State) : State :=
  {| modelStatus := modelStatus st; scanResult := scanResult st;
     latency := latency st; sessionRef := sessionRef st;
     isModelReady := isModelReady st; isInferenceBusy := isInferenceBusy st;
     lastCall := v; posted := posted st; console := console st |}.

Definition with_posted (v : list bytes) (st : State) : State :=
  {| modelStatus := modelStatus st; scanResult := scanResult st;
     latency := latency st; sessionRef := sessionRef st;
     isModelReady := isModelReady st; isInferenceBusy := isInferenceBusy st;
     lastCall := lastCall st; posted := v; console := console st |}.

Definition with_console (v : list string) (st : State) : State :=
  {| modelStatus := modelStatus st; scanResult := scanResult st;
     latency := latency st; sessionRef := sessionRef st;
     isModelReady := isModelReady st; isInferenceBusy := isInferenceBusy st;
     lastCall := lastCall st; posted := posted st; console := v |}.

(** ** Statements: state and exceptions *)

Definition js (A : Type) : Type := State -> completion A * State.

Definition ret {A} (a : A) : js A := fun st => (Normal a, st).

Definition bind {A B} (c : js A) (k : A -> js B) : js B :=
  fun st =>
    match c st with
    | (Normal a, st') => k a st'
    | (Throw e, st') => (Throw e, st')
    end.

Declare Scope js_scope.
Delimit Scope js_scope with js.
Notation "v <- c ;; k" := (bind c (fun v => k))
  (at level 61, c at next level, right associativity) : js_scope.
Notation "c ;; k" := (bind c (fun _ => k))
  (at level 61, right associativity) : js_scope.
Local Open Scope js_scope.

Definition read : js State := fun st => (Normal st, st).
Definition update (f : State -> State) : js unit := fun st => (Normal tt, f st).

(** A collaborator's completion, as a statement. *)
Definition perform {A} (c : completion A) : js A := fun st => (c, st).

(** [try { body } catch (e) { handler }] *)
Definition try_catch {A} (body : js A) (handler : string -> js A) : js A :=
  fun st =>
    match body st with
    | (Normal a, st') => (Normal a, st')
    | (Throw e, st') => handler e st'
    end.

(** [try { body } finally { finalizer }]: the finalizer runs however
    the body completes; the body's completion stands unless the
    finalizer throws. *)
Definition try_finally {A} (body : js A) (finalizer : js unit) : js A :=
  fun st =>
    let (c, st') := body st in
    match finalizer st' with
    | (Normal _, st'') => (c, st'')
    | (Throw e, st'') => (Throw e, st'')
    end.

Definition console_log (line : string) : js unit :=
  update (fun st => with_console (console st ++ [line]) st).

Definition setModelStatus (v : string) : js unit := update (with_modelStatus v).
Definition setScanResult (v : option ScanResult) : js unit := update (with_scanResult v).
Definition setLatency (v : Z) : js unit := update (with_latency v).

(** ** The program *)

Section Pipeline.

(** The collaborators: [InferenceSession.create], the resize
    plugin's [resize] (its result may be falsy: [None]) and the
    awaited [session.run]. *)
Variable create : string -> completion InferenceSession.
Variable resize : Frame -> ResizeOptions -> completion (option bytes).
Variable run : InferenceSession -> list (string * Tensor) -> completion Outputs.

(** The effect on [assets] (lines 36-46): [assets?.[0]] is the
    local URI of the model when the asset is there.  The chain
    [create(..).then(..).catch(..)] is a [try]/[catch] around the
    awaited call and the [then] callback. *)
Definition useEffect (asset : option string) : js unit :=
  match asset with
  | Some localUri =>
      try_catch
        (session <- perform (create localUri);;
         update (with_sessionRef (Some session));;
         update (with_isModelReady true);;
         setModelStatus "✅ Ready")
        (fun e => setModelStatus "❌ Error")
  | None => ret tt
  end.

(** [outputs[Object.keys(outputs)[0]].data]: reading [data] off
    [undefined] throws when the engine returned no output. *)
Definition first_output_data (outputs : Outputs) : js (list float) :=
  match outputs with
  | (_, data) :: _ => ret data
  | [] => perform (Throw "Cannot read property 'data' of undefined")
  end.

(** [performInference] (lines 48-76).  [startTime] and [endTime] are
    the two readings of [Date.now()].  The function is run in one
    piece: what comes before the [await] touches only locals. *)
Definition performInference (startTime endTime : Z) (bgrArray : bytes) : js unit :=
  st <- read;;
  match sessionRef st with
  | None => ret tt
  | Some session =>
      try_finally
        (try_catch
           (let uint8Data := bgrArray in
            let inputTensor :=
              {| tensor_type := "uint8"; tensor_data := uint8Data;
                 dims := [240; 320; 3] |} in
            outputs <- perform (run session [(INPUT_TENSOR_NAME, inputTensor)]);;
            data <- first_output_data outputs;;
            let score := JS.index data 4 in
            let clsId := JS.index data 5 in
            (if JS.gt (JS.ToNumber score) CONFIDENCE_THRESHOLD then
               setScanResult
                 (Some {| label := if JS.rounds_to_zero (JS.ToNumber clsId)
                                   then FRONT else BACK;
                          score := JS.toFixed0 (JS.ToNumber score * 100)%float |})
             else
               setScanResult None);;
            setLatency (endTime - startTime))
           (fun e => console_log ("Inference Error: " ++ e)))
        (update (with_isInferenceBusy false))
  end.

(** [runInferenceJS]: the call is posted to the JS thread, which runs
    the posted calls in order.  Posting itself does not fail. *)
Definition runInferenceJS (bgrArray : bytes) : js unit :=
  update (fun st => with_posted (posted st ++ [bgrArray]) st).

(** Modelled from the spec: the decision of [runAtTargetFps], which
    belongs to react-native-vision-camera and is not among the
    sources.  Section 4.1: admit(now) "returns true and updates the
    timestamp iff now - lastAdmitted >= interval", and "first call
    always admits (timestamp initialized to never)".  The interval is
    that of the target rate, 1000 / fps milliseconds; timestamps are
    whole milliseconds. *)
Definition admits (fps now : Z) (lastAdmitted : option Z) : bool :=
  match lastAdmitted with
  | None => true
  | Some t => 1000 / fps <=? now - t
  end.

(** Modelled from the spec: [runAtTargetFps(fps, func)], absent from
    the sources like its decision above.  Section 4.1: it "returns
    true and updates the timestamp" and lets the frame through, or
    "returns false and state is unchanged".  The result is [func]'s
    when it ran and [undefined] otherwise. *)
Definition runAtTargetFps {A} (fps now : Z) (func : js A) : js (option A) :=
  st <- read;;
  if admits fps now (lastCall st) then
    update (with_lastCall (Some now));;
    a <- func;;
    ret (Some a)
  else ret None.

(** The sampler alone, presented with frames at the times [ts]:
    which of them it lets through, and the state it ends in. *)
Fixpoint sampled (ts : list Z) (st : State) : list bool * State :=
  match ts with
  | [] => ([], st)
  | t :: ts' =>
      let (c, st') := runAtTargetFps TARGET_FPS t (ret tt) st in
      let (ds, st'') := sampled ts' st' in
      (match c with Normal (Some _) => true | _ => false end :: ds, st'')
  end.

(** The crop rectangle of lines 88-91. *)
Definition cropW (frame : Frame) : float := (width frame * 0.83)%float.
Definition cropH (frame : Frame) : float := (cropW frame * 1.62)%float.
Definition cropX (frame : Frame) : float := ((width frame - cropW frame) / 2)%float.
Definition cropY (frame : Frame) : float := ((height frame - cropH frame) / 2)%float.

Definition resizeOptions (frame : Frame) : ResizeOptions :=
  {| crop := {| x := cropX frame; y := cropY frame;
                rect_width := cropW frame; rect_height := cropH frame |};
     scale := (320, 240);
     resize_pixelFormat := "bgr";
     dataType := "uint8" |}.

(** The frame processor (lines 80-108); [now] is the time at which
    the frame arrives. *)
Definition frameProcessor (now : Z) (frame : Frame) : js unit :=
  runAtTargetFps TARGET_FPS now
    (st <- read;;
     if isInferenceBusy st || negb (isModelReady st) then ret tt
     else
       try_catch
         (resized <- perform (resize frame (resizeOptions frame));;
          match resized with
          | Some buffer =>
              update (with_isInferenceBusy true);;
              runInferenceJS buffer
          | None => ret tt
          end)
         (fun e => console_log ("Worklet Error: " ++ e)));;
  ret tt.

(** ** The two threads, interleaved

    The worklet thread runs the frame processor once per frame; the
    JS thread runs the effect's callbacks and the posted calls of
    [performInference], oldest first.  [RunPosted] stands for one
    such call from its start to the end of its [finally] block, and
    is placed where the call ends: the frames that arrive while the
    engine runs come before it in a sequence of events, and find the
    busy flag set.  The frame processor reads the flag and sets it
    within one call, and frames are processed one at a time. *)
Inductive event :=
| AssetsLoaded (asset : option string)
| CameraFrame (now : Z) (frame : Frame)
| RunPosted (startTime endTime : Z).

Definition handle (ev : event) : js unit :=
  match ev with
  | AssetsLoaded asset => useEffect asset
  | CameraFrame now frame => frameProcessor now frame
  | RunPosted startTime endTime =>
      st <- read;;
      match posted st with
      | bgrArray :: rest =>
          update (with_posted rest);;
          performInference startTime endTime bgrArray
      | [] => ret tt
      end
  end.

Definition step (st : State) (ev : event) : State := snd (handle ev st).

Definition exec (st : State) (evs : list event) : State := fold_left step evs st.

(** ** Derived notions *)

(** The feeds [performInference] hands to the engine. *)
Definition feeds (bgrArray : bytes) : list (string * Tensor) :=
  [(INPUT_TENSOR_NAME,
    {| tensor_type := "uint8"; tensor_data := bgrArray; dims := [240; 320; 3] |})].

(** The argument of [setScanResult] on lines 62-69. *)
Definition detection (data : list float) : option ScanResult :=
  if JS.gt (JS.ToNumber (JS.index data 4)) CONFIDENCE_THRESHOLD then
    Some {| label := if JS.rounds_to_zero (JS.ToNumber (JS.index data 5))
                     then FRONT else BACK;
            score := JS.toFixed0 (JS.ToNumber (JS.index data 4) * 100)%float |}
  else None.

(** The state a task leaves behind when its [try] block threw. *)
Definition failed (e : string) (st : State) : State :=
  with_isInferenceBusy false
    (with_console (console st ++ ["Inference Error: " ++ e]) st).

(** The state a task leaves behind when its [try] block ran through. *)
Definition completed (elapsed : Z) (data : list float) (st : State) : State :=
  with_isInferenceBusy false
    (with_latency elapsed (with_scanResult (detection data) st)).

(** *** Reachable states

    What holds of every state the pipeline can be in: the model is
    flagged ready only once the session is stored, the gate is taken
    only when the model is ready, and the calls posted to the JS
    thread are exactly the holders of the gate. *)
Definition consistent (st : State) : Prop :=
  (isModelReady st = true -> sessionRef st <> None) /\
  (isInferenceBusy st = true -> isModelReady st = true) /\
  List.length (posted st) = if isInferenceBusy st then 1%nat else 0%nat.

(** The frame processor's check-then-set went through at [ev]: the
    flag was clear before and is set after. *)
Definition acquires (st : State) (ev : event) : bool :=
  negb (isInferenceBusy st) && isInferenceBusy (step st ev).

(** A task cleared the flag at [ev]. *)
Definition releases (st : State) (ev : event) : bool :=
  match ev with
  | RunPosted _ _ => isInferenceBusy st && negb (isInferenceBusy (step st ev))
  | _ => false
  end.

(** The state of a pipeline whose model has not loaded: the initial
    one, but for the status text and the sampler's timestamp. *)
Definition dormant (st : State) : Prop :=
  st = with_lastCall (lastCall st) (with_modelStatus (modelStatus st) initial) /\
  (modelStatus st = "Loading..." \/ modelStatus st = "❌ Error").

(** Every model load the effect starts among [evs] fails. *)
Definition loads_fail (evs : list event) : Prop :=
  forall localUri,
    In (AssetsLoaded (Some localUri)) evs -> exists e, create localUri = Throw e.

(** *** The sampler's history *)

(** The time of the last admitted frame in a history of frames
    presented so far, oldest first, each with the sampler's
    decision. *)
Fixpoint last_admitted (history : list (Z * bool)) : option Z :=
  match history with
  | [] => None
  | (t, admitted) :: later =>
      match last_admitted later with
      | Some t' => Some t'
      | None => if admitted then Some t else None
      end
  end.

(** *** The region of interest, frame by frame *)

(** A whole number of pixels, as the JS number it is. *)
Definition pixel_count (n : Z) : float := of_uint63 (Uint63.of_Z n).

(** A crop rectangle of height [ch], centred on a frame of height
    [fh], starts above the frame and is taller than it. *)
Definition overflows (ch fh : float) : bool :=
  ((fh - ch) / 2 <? 0)%float && (fh <? ch)%float.

Definition crop_overflows (w h : Z) : bool :=
  overflows (pixel_count w * 0.83 * 1.62)%float (pixel_count h).

(** The same test, run over the [n] heights from [i] on ... *)
Fixpoint heights_overflow (n : nat) (i : int) (ch : float) : bool :=
  match n with
  | O => true
  | S k => overflows ch (of_uint63 i) && heights_overflow k (i + 1)%uint63 ch
  end.

(** ... the heights below 1.3446 times the width [w] being those
    below the ceiling of 13446 w / 10000 ... *)
Definition short_heights (w : Z) : nat := Z.to_nat ((13446 * w + 9999) / 10000).

(** ... and over the [n] widths from [i] on. *)
Fixpoint widths_overflow (n : nat) (i : int) : bool :=
  match n with
  | O => true
  | S k =>
      heights_overflow (short_heights (Uint63.to_Z i)) 0%uint63
        (of_uint63 i * 0.83 * 1.62)%float
      && widths_overflow k (i + 1)%uint63
  end.

Definition crop_overflows_upto (W : Z) : bool :=
  widths_overflow (Z.to_nat W) 1%uint63.

(** * Properties *)

(** Projections of updated states, computed without unfolding
    anything else. *)
Ltac fields :=
  cbn [modelStatus scanResult latency sessionRef isModelReady isInferenceBusy
       lastCall posted console with_modelStatus with_scanResult with_latency
       with_sessionRef with_isModelReady with_isInferenceBusy with_lastCall
       with_posted with_console] in *.

(** ** What each function does to the state *)

Lemma performInference_unfold startTime endTime bgrArray st :
  performInference startTime endTime bgrArray st =
  match sessionRef st with
  | None => (Normal tt, st)
  | Some session =>
      (Normal tt,
       match run session (feeds bgrArray) with
       | Throw e => failed e st
       | Normal [] => failed "Cannot read property 'data' of undefined" st
       | Normal ((_, data) :: _) => completed (endTime - startTime) data st
       end)
  end.
Proof.
  unfold performInference, bind, read, feeds.
  destruct (sessionRef st) as [session|]; [|reflexivity].
  unfold try_finally, try_catch, bind, perform.
  destruct (run session _) as [[|[name data] rest]|e]; try reflexivity.
  unfold completed, detection, first_output_data, ret.
  destruct (JS.gt _ _); reflexivity.
Qed.

Lemma frameProcessor_unfold now frame st :
  frameProcessor now frame st =
  (Normal tt,
   if admits TARGET_FPS now (lastCall st) then
     let st1 := with_lastCall (Some now) st in
     if isInferenceBusy st || negb (isModelReady st) then st1
     else
       match resize frame (resizeOptions frame) with
       | Throw e => with_console (console st ++ ["Worklet Error: " ++ e]) st1
       | Normal None => st1
       | Normal (Some buffer) =>
           with_posted (posted st ++ [buffer]) (with_isInferenceBusy true st1)
       end
   else st).
Proof.
  unfold frameProcessor, runAtTargetFps, bind, read.
  destruct (admits _ _ _); [|reflexivity].
  cbn.
  destruct (isInferenceBusy st || negb (isModelReady st)); [reflexivity|].
  unfold try_catch, bind, perform.
  destruct (resize _ _) as [[buffer|]|e]; reflexivity.
Qed.

Lemma useEffect_unfold asset st :
  useEffect asset st =
  (Normal tt,
   match asset with
   | None => st
   | Some localUri =>
       match create localUri with
       | Normal session =>
           with_modelStatus "✅ Ready"
             (with_isModelReady true (with_sessionRef (Some session) st))
       | Throw e => with_modelStatus "❌ Error" st
       end
   end).
Proof.
  unfold useEffect.
  destruct asset as [localUri|]; [|reflexivity].
  unfold try_catch, bind, perform.
  destruct (create localUri); reflexivity.
Qed.

Lemma handle_normal ev st : fst (handle ev st) = Normal tt.
Proof.
  destruct ev as [asset|now frame|startTime endTime]; cbn [handle].
  - now rewrite useEffect_unfold.
  - now rewrite frameProcessor_unfold.
  - unfold bind, read, update.
    destruct (posted st) as [|bgrArray rest]; [reflexivity|].
    cbv beta iota. rewrite performInference_unfold.
    now destruct (sessionRef _).
Qed.

Lemma step_unfold st ev :
  step st ev =
  match ev with
  | AssetsLoaded asset => snd (useEffect asset st)
  | CameraFrame now frame => snd (frameProcessor now frame st)
  | RunPosted startTime endTime =>
      match posted st with
      | [] => st
      | bgrArray :: rest =>
          snd (performInference startTime endTime bgrArray (with_posted rest st))
      end
  end.
Proof.
  unfold step.
  destruct ev as [asset|now frame|startTime endTime]; cbn [handle]; try reflexivity.
  unfold bind, read, update.
  now destruct (posted st).
Qed.

Lemma exec_app st evs1 evs2 :
  exec st (evs1 ++ evs2)%list = exec (exec st evs1) evs2.
Proof. apply fold_left_app. Qed.

Lemma consistent_initial : consistent initial.
Proof. repeat split; cbn; congruence. Qed.

Lemma consistent_step st ev : consistent st -> consistent (step st ev).
Proof.
  unfold consistent. intros (Hready & Hbusy & Hposted).
  rewrite step_unfold.
  destruct ev as [asset|now frame|startTime endTime].
  - rewrite useEffect_unfold; cbn [snd].
    destruct asset as [localUri|]; [|auto].
    destruct (create localUri); fields; repeat split; auto; congruence.
  - rewrite frameProcessor_unfold; cbn [snd].
    destruct (admits _ _ _); [|auto].
    cbv zeta.
    destruct (isInferenceBusy st) eqn:Eb; cbn [orb]; [fields; rewrite Eb; auto|].
    destruct (isModelReady st) eqn:Er; cbn [negb]; [|fields; rewrite Eb, Er; auto].
    destruct (resize _ _) as [[buffer|]|e]; fields; rewrite ?Eb, ?Er; auto.
    repeat split; auto. now rewrite length_app, Hposted.
  - destruct (posted st) as [|bgrArray rest] eqn:Ep;
      [repeat split; auto; now rewrite Ep|].
    cbn [List.length] in Hposted.
    destruct (isInferenceBusy st) eqn:Eb; [|discriminate Hposted].
    specialize (Hbusy eq_refl). specialize (Hready Hbusy).
    rewrite performInference_unfold. fields.
    destruct (sessionRef st) as [session|] eqn:Es; [|congruence].
    cbn [snd].
    assert (rest = []) as -> by (destruct rest; [reflexivity|discriminate Hposted]).
    unfold failed, completed.
    destruct (run _ _) as [[|[name data] tl]|e]; fields; repeat split; auto; congruence.
Qed.

Lemma consistent_exec evs : forall st, consistent st -> consistent (exec st evs).
Proof.
  induction evs as [|ev evs IH]; intros st H; [exact H|].
  apply IH, consistent_step, H.
Qed.

Lemma reachable_consistent evs : consistent (exec initial evs).
Proof. apply consistent_exec, consistent_initial. Qed.

(** A task that finds the session clears the flag, whatever the
    engine does. *)
Lemma performInference_clears startTime endTime bgrArray st :
  sessionRef st <> None ->
  isInferenceBusy (snd (performInference startTime endTime bgrArray st)) = false.
Proof.
  intros Hs. rewrite performInference_unfold.
  destruct (sessionRef st) as [session|]; [|congruence].
  cbn [snd]. unfold failed, completed.
  now destruct (run _ _) as [[|[name data] tl]|e].
Qed.

(** The one exit that does not clear the flag: the early return of
    line 49, taken when no session is stored.  It is out of reach
    once the flag is set ([posted_call_runs] below). *)
Remark performInference_without_session startTime endTime bgrArray st :
  sessionRef st = None ->
  performInference startTime endTime bgrArray st = (Normal tt, st).
Proof. intros Hs. now rewrite performInference_unfold, Hs. Qed.

(** A frame that passes the sampler, finds the gate free and the
    model ready, and is resized, takes the gate and posts one call. *)
Lemma frame_acquires now frame buffer st :
  admits TARGET_FPS now (lastCall st) = true ->
  isInferenceBusy st = false ->
  isModelReady st = true ->
  resize frame (resizeOptions frame) = Normal (Some buffer) ->
  step st (CameraFrame now frame) =
  with_posted (posted st ++ [buffer])
    (with_isInferenceBusy true (with_lastCall (Some now) st)).
Proof.
  intros Ha Hb Hr Hz.
  rewrite step_unfold, frameProcessor_unfold, Ha, Hb, Hr, Hz. reflexivity.
Qed.

(** While the flag is set, only a posted call can clear it. *)
Lemma busy_kept st ev :
  isInferenceBusy st = true ->
  isInferenceBusy (step st ev) = false ->
  releases st ev = true.
Proof.
  intros Hb Hc. unfold releases.
  destruct ev as [asset|now frame|startTime endTime].
  - rewrite step_unfold, useEffect_unfold in Hc. cbn [snd] in Hc.
    destruct asset as [localUri|]; [destruct (create localUri)|]; fields; congruence.
  - rewrite step_unfold, frameProcessor_unfold, Hb in Hc. cbn [snd orb] in Hc.
    destruct (admits _ _ _); fields; congruence.
  - now rewrite Hb, Hc.
Qed.

Lemma released_between mid : forall st,
  isInferenceBusy st = true ->
  isInferenceBusy (exec st mid) = false ->
  exists mid1 ev mid2,
    mid = (mid1 ++ ev :: mid2)%list /\ releases (exec st mid1) ev = true.
Proof.
  induction mid as [|ev mid IH]; intros st Hb Hc; [cbn in Hc; congruence|].
  destruct (isInferenceBusy (step st ev)) eqn:E.
  - destruct (IH (step st ev) E Hc) as (mid1 & ev' & mid2 & -> & Hr).
    now exists (ev :: mid1), ev', mid2.
  - exists [], ev, mid. split; [reflexivity|]. now apply busy_kept.
Qed.

(** A posted call that runs in a reachable state with the flag set
    is the only one waiting, finds the session and clears the flag. *)
Lemma posted_call_runs evs startTime endTime :
  let st := exec initial evs in
  isInferenceBusy st = true ->
  exists bgrArray session,
    posted st = [bgrArray] /\
    sessionRef st = Some session /\
    isModelReady st = true /\
    step st (RunPosted startTime endTime) =
    match run session (feeds bgrArray) with
    | Throw e => failed e (with_posted [] st)
    | Normal [] =>
        failed "Cannot read property 'data' of undefined" (with_posted [] st)
    | Normal ((_, data) :: _) =>
        completed (endTime - startTime) data (with_posted [] st)
    end.
Proof.
  intros st Hb.
  destruct (reachable_consistent evs) as (Hready & Hbusy & Hposted).
  fold st in Hready, Hbusy, Hposted.
  rewrite Hb in Hposted. specialize (Hbusy Hb). specialize (Hready Hbusy).
  destruct (posted st) as [|bgrArray [|? ?]] eqn:Ep; try discriminate Hposted.
  destruct (sessionRef st) as [session|] eqn:Es; [|congruence].
  exists bgrArray, session. repeat split; auto.
  rewrite step_unfold, Ep, performInference_unfold. fields.
  now rewrite Es.
Qed.

(** ** The gate *)

(** C1.  Every call of [performInference] that starts after the
    frame processor set the busy flag ends normally and with the
    flag cleared, whatever the engine does (it returns outputs above
    or below the threshold, returns nothing to interpret, or
    throws), so that the next frame that gets as far as the gate
    takes it.  In particular, when the engine call throws, the task
    leaves the flag cleared and the error logged. *)
Theorem gate_released_on_every_exit evs startTime endTime :
  let st := exec initial evs in
  isInferenceBusy st = true ->
  exists bgrArray,
    posted st = [bgrArray] /\
    handle (RunPosted startTime endTime) st =
    performInference startTime endTime bgrArray (with_posted [] st) /\
    fst (handle (RunPosted startTime endTime) st) = Normal tt /\
    let st' := step st (RunPosted startTime endTime) in
    isInferenceBusy st' = false /\
    posted st' = [] /\
    (forall session e,
        sessionRef st = Some session ->
        run session (feeds bgrArray) = Throw e ->
        st' = failed e (with_posted [] st)) /\
    (forall now frame buffer,
        admits TARGET_FPS now (lastCall st') = true ->
        resize frame (resizeOptions frame) = Normal (Some buffer) ->
        acquires st' (CameraFrame now frame) = true /\
        posted (step st' (CameraFrame now frame)) = [buffer]).
Proof.
  intros st Hb.
  destruct (posted_call_runs evs startTime endTime Hb)
    as (bgrArray & session & Hp & Hs & Hr & Hstep).
  fold st in Hp, Hs, Hr, Hstep.
  exists bgrArray. split; [exact Hp|].
  split.
  { cbn [handle]. unfold bind, read, update. now rewrite Hp. }
  split; [apply handle_normal|].
  cbv zeta.
  set (st' := step st (RunPosted startTime endTime)) in *.
  assert (Hclear : isInferenceBusy st' = false).
  { rewrite Hstep. unfold failed, completed.
    now destruct (run _ _) as [[|[name data] tl]|e]. }
  assert (Hempty : posted st' = []).
  { rewrite Hstep. unfold failed, completed.
    now destruct (run _ _) as [[|[name data] tl]|e]. }
  assert (Hready : isModelReady st' = true).
  { rewrite Hstep. unfold failed, completed.
    now destruct (run _ _) as [[|[name data] tl]|e]. }
  repeat split; auto.
  - intros session' e Hs' He.
    rewrite Hs in Hs'. injection Hs' as <-.
    now rewrite Hstep, He.
  - unfold acquires.
    rewrite (frame_acquires now frame buffer st'); auto.
    now rewrite Hclear.
  - rewrite (frame_acquires now frame buffer st'); auto.
    fields. now rewrite Hempty.
Qed.

(** C3.  Single flight.  (1) In every reachable state at most one
    call holds the gate, and the flag is set exactly when one does.
    (2) From any state and along any sequence of events, between two
    successful check-then-sets of the frame processor a task has
    cleared the flag.  (3) After a task has cleared the flag, the
    next frame that gets as far as the gate takes it. *)
Theorem single_flight :
  (forall evs,
      let st := exec initial evs in
      (List.length (posted st) <= 1)%nat /\
      (isInferenceBusy st = true <-> posted st <> [])) /\
  (forall st evs1 ev1 mid ev2,
      acquires (exec st evs1) ev1 = true ->
      acquires (exec st (evs1 ++ ev1 :: mid)) ev2 = true ->
      exists mid1 ev mid2,
        mid = (mid1 ++ ev :: mid2)%list /\
        releases (exec st (evs1 ++ ev1 :: mid1)) ev = true) /\
  (forall evs ev now frame buffer,
      let st := exec initial evs in
      releases st ev = true ->
      let st' := step st ev in
      admits TARGET_FPS now (lastCall st') = true ->
      resize frame (resizeOptions frame) = Normal (Some buffer) ->
      acquires st' (CameraFrame now frame) = true).
Proof.
  split; [|split].
  - intros evs st.
    destruct (reachable_consistent evs) as (_ & _ & Hposted). fold st in Hposted.
    destruct (isInferenceBusy st), (posted st); cbn in *; split;
      try lia; split; congruence.
  - intros st evs1 ev1 mid ev2 H1 H2.
    unfold acquires in H1, H2.
    apply andb_prop in H1 as [_ H1], H2 as [H2 _].
    apply negb_true_iff in H2.
    rewrite exec_app in H2. cbn [exec fold_left] in H2.
    destruct (released_between mid _ H1 H2) as (mid1 & ev & mid2 & -> & Hr).
    exists mid1, ev, mid2. split; [reflexivity|].
    now rewrite exec_app.
  - intros evs ev now frame buffer st Hrel st' Ha Hz.
    unfold releases in Hrel.
    destruct ev as [| |startTime endTime]; try discriminate.
    apply andb_prop in Hrel as [Hb Hc]. apply negb_true_iff in Hc.
    destruct (posted_call_runs evs startTime endTime Hb)
      as (bgrArray & session & _ & _ & Hr & Hstep).
    fold st in Hr, Hstep. fold st' in Hstep, Hc.
    assert (Hready : isModelReady st' = true).
    { rewrite Hstep. unfold failed, completed.
      now destruct (run _ _) as [[|[name data] tl]|e]. }
    unfold acquires.
    rewrite (frame_acquires now frame buffer st'); auto.
    now rewrite Hc.
Qed.

(** C5.  When the engine call throws, the task ends normally and
    changes two things only: the busy flag is cleared and one line
    is written to the console.  The published result, the latency
    and every other field are as they were. *)
Theorem engine_failure_frame session e startTime endTime bgrArray st :
  sessionRef st = Some session ->
  run session (feeds bgrArray) = Throw e ->
  let r := performInference startTime endTime bgrArray st in
  fst r = Normal tt /\
  snd r = with_isInferenceBusy false
            (with_console (console st ++ ["Inference Error: " ++ e]) st) /\
  scanResult (snd r) = scanResult st /\
  latency (snd r) = latency st /\
  modelStatus (snd r) = modelStatus st /\
  sessionRef (snd r) = sessionRef st /\
  isModelReady (snd r) = isModelReady st /\
  lastCall (snd r) = lastCall st /\
  posted (snd r) = posted st /\
  isInferenceBusy (snd r) = false.
Proof.
  intros Hs He r. subst r.
  rewrite performInference_unfold, Hs, He.
  cbn [fst snd]. unfold failed. fields.
  repeat split; auto.
Qed.

(** C9.  A frame whose resize step throws or returns a falsy result
    is dropped inside the frame processor: the call ends normally,
    the busy flag is what it was (clear, when the resize step was
    reached), no call of [performInference] is posted, and nothing
    the display reads has changed.  What is left of the frame is the
    sampler's timestamp and, when [resize] threw, one console
    line. *)
Theorem failed_resize_drops_frame now frame st :
  (resize frame (resizeOptions frame) = Normal None \/
   exists e, resize frame (resizeOptions frame) = Throw e) ->
  let r := frameProcessor now frame st in
  fst r = Normal tt /\
  isInferenceBusy (snd r) = isInferenceBusy st /\
  posted (snd r) = posted st /\
  acquires st (CameraFrame now frame) = false /\
  scanResult (snd r) = scanResult st /\
  latency (snd r) = latency st /\
  modelStatus (snd r) = modelStatus st /\
  sessionRef (snd r) = sessionRef st /\
  isModelReady (snd r) = isModelReady st /\
  (admits TARGET_FPS now (lastCall st) = true ->
   isInferenceBusy st = false ->
   isModelReady st = true ->
   isInferenceBusy (snd r) = false /\
   lastCall (snd r) = Some now /\
   console (snd r) =
   match resize frame (resizeOptions frame) with
   | Throw e => (console st ++ ["Worklet Error: " ++ e]%string)%list
   | Normal _ => console st
   end).
Proof.
  intros Hz r.
  assert (Hbusy : isInferenceBusy (snd r) = isInferenceBusy st).
  { subst r. rewrite frameProcessor_unfold. cbn [snd].
    destruct (admits _ _ _); [|reflexivity]. cbv zeta.
    destruct (_ || _); [reflexivity|].
    destruct Hz as [-> | [e ->]]; reflexivity. }
  unfold acquires. rewrite step_unfold. fold r. rewrite Hbusy.
  subst r. rewrite frameProcessor_unfold. cbn [fst snd].
  split; [reflexivity|].
  destruct (admits _ _ _); cbv zeta.
  2:{ repeat split; auto using andb_negb_l; discriminate. }
  destruct (isInferenceBusy st) eqn:Eb; cbn [orb].
  { repeat split; auto; discriminate. }
  destruct (isModelReady st) eqn:Er; cbn [negb].
  2:{ repeat split; auto; discriminate. }
  destruct Hz as [-> | [e ->]]; repeat split; auto.
Qed.

Lemma dormant_step st ev :
  dormant st -> loads_fail [ev] -> dormant (step st ev).
Proof.
  unfold dormant. intros (Hst & Hm) Hfail.
  rewrite step_unfold.
  destruct ev as [asset|now frame|startTime endTime].
  - rewrite useEffect_unfold. cbn [snd].
    destruct asset as [localUri|]; [|tauto].
    destruct (Hfail localUri) as [e ->]; [now left|].
    fields. split; [|tauto]. now rewrite Hst.
  - rewrite frameProcessor_unfold. cbn [snd].
    destruct (admits _ _ _); [|tauto].
    cbv zeta. rewrite Hst. fields. cbn [initial isInferenceBusy isModelReady orb negb].
    fields. tauto.
  - rewrite Hst. fields. cbn [initial posted]. rewrite <- Hst. tauto.
Qed.

Lemma dormant_exec evs : forall st,
  dormant st -> loads_fail evs -> dormant (exec st evs).
Proof.
  induction evs as [|ev evs IH]; intros st Hd Hfail; [exact Hd|].
  cbn [exec fold_left]. apply IH.
  - apply dormant_step; [exact Hd|].
    intros localUri [->|[]]. apply Hfail. now left.
  - intros localUri Hin. apply Hfail. now right.
Qed.

Lemma error_status_kept evs : forall st,
  loads_fail evs ->
  modelStatus st = "❌ Error" -> modelStatus (exec st evs) = "❌ Error".
Proof.
  induction evs as [|ev evs IH]; intros st Hfail Hm; [exact Hm|].
  cbn [exec fold_left]. apply IH.
  { intros localUri Hin. apply Hfail. now right. }
  rewrite step_unfold.
  destruct ev as [asset|now frame|startTime endTime].
  - rewrite useEffect_unfold. cbn [snd].
    destruct asset as [localUri|]; [|exact Hm].
    destruct (Hfail localUri) as [e ->]; [now left|]. reflexivity.
  - rewrite frameProcessor_unfold. cbn [snd].
    destruct (admits _ _ _); [|exact Hm]. cbv zeta.
    destruct (_ || _); [exact Hm|].
    destruct (resize _ _) as [[buffer|]|e]; exact Hm.
  - destruct (posted st) as [|bgrArray rest]; [exact Hm|].
    rewrite performInference_unfold. fields.
    destruct (sessionRef st); [|exact Hm].
    cbn [snd]. unfold failed, completed.
    destruct (run _ _) as [[|[name data] tl]|e]; exact Hm.
Qed.

(** Only the frame processor sets the flag, and only when the model
    is ready. *)
Lemma acquires_ready st ev : acquires st ev = true -> isModelReady st = true.
Proof.
  unfold acquires. intros H. apply andb_prop in H as [Hb Hc].
  apply negb_true_iff in Hb. rewrite step_unfold in Hc.
  destruct ev as [asset|now frame|startTime endTime].
  - rewrite useEffect_unfold in Hc. cbn [snd] in Hc.
    destruct asset as [localUri|]; [destruct (create localUri)|]; fields; congruence.
  - rewrite frameProcessor_unfold, Hb in Hc. cbn [snd orb] in Hc.
    destruct (admits _ _ _); [|congruence]. cbv zeta in Hc.
    destruct (isModelReady st); [reflexivity|]. cbn [negb] in Hc. fields. congruence.
  - destruct (posted st) as [|bgrArray rest]; [congruence|].
    rewrite performInference_unfold in Hc. fields.
    destruct (sessionRef st); cbn [snd] in Hc; [|fields; congruence].
    unfold failed, completed in Hc.
    destruct (run _ _) as [[|[name data] tl]|e]; fields; congruence.
Qed.

(** C6.  Readiness gating.  (1) A frame that arrives while the
    model is not ready is dropped before the gate: nothing but the
    sampler's timestamp changes.  (2) The gate is only ever taken,
    and a posted call only ever waits, with the model ready.
    (3) When every model load fails, the pipeline stays not ready
    however long it runs: no frame takes the gate, no call is
    posted, no result is published, the state is the initial one
    but for the status text and the sampler's timestamp, and the
    status text shows the failure.  (4) No event handler ends with
    an exception. *)
Theorem readiness_gating :
  (forall st now frame,
      isModelReady st = false ->
      acquires st (CameraFrame now frame) = false /\
      step st (CameraFrame now frame) =
      if admits TARGET_FPS now (lastCall st)
      then with_lastCall (Some now) st else st) /\
  (forall st ev, acquires st ev = true -> isModelReady st = true) /\
  (forall evs,
      let st := exec initial evs in
      posted st <> [] -> isModelReady st = true) /\
  (forall evs,
      loads_fail evs ->
      let st := exec initial evs in
      isModelReady st = false /\
      isInferenceBusy st = false /\
      posted st = [] /\
      scanResult st = None /\
      st = with_lastCall (lastCall st) (with_modelStatus (modelStatus st) initial) /\
      (forall now frame, acquires st (CameraFrame now frame) = false) /\
      ((exists localUri, In (AssetsLoaded (Some localUri)) evs) ->
       modelStatus st = "❌ Error")) /\
  (forall ev st, fst (handle ev st) = Normal tt).
Proof.
  assert (Hdrop : forall st now frame,
             isModelReady st = false ->
             acquires st (CameraFrame now frame) = false).
  { intros st now frame Hr.
    destruct (acquires st (CameraFrame now frame)) eqn:E; [|reflexivity].
    apply acquires_ready in E. congruence. }
  repeat apply conj.
  - intros st now frame Hr. split; [now apply Hdrop|].
    rewrite step_unfold, frameProcessor_unfold, Hr. cbn [snd negb].
    rewrite orb_true_r. now destruct (admits _ _ _).
  - apply acquires_ready.
  - intros evs st Hp.
    destruct (reachable_consistent evs) as (_ & Hbusy & Hposted).
    fold st in Hbusy, Hposted.
    destruct (isInferenceBusy st); [auto|].
    destruct (posted st); [congruence|discriminate Hposted].
  - intros evs Hfail st.
    assert (Hd : dormant st).
    { apply dormant_exec; [|exact Hfail]. unfold dormant. cbn. tauto. }
    destruct Hd as (Hst & _).
    assert (Hr : isModelReady st = false) by now rewrite Hst.
    repeat split; auto; try (now rewrite Hst).
    intros [localUri Hin].
    apply in_split in Hin as (evs1 & evs2 & ->).
    subst st. rewrite exec_app. cbn [exec fold_left].
    apply error_status_kept.
    { intros u Hu. apply Hfail. apply in_or_app. right. now right. }
    rewrite step_unfold, useEffect_unfold. cbn [snd].
    destruct (Hfail localUri) as [e ->]; [|reflexivity].
    apply in_or_app. right. now left.
  - apply handle_normal.
Qed.

Lemma ready_kept st ev : isModelReady st = true -> isModelReady (step st ev) = true.
Proof.
  intros Hr. rewrite step_unfold.
  destruct ev as [asset|now frame|startTime endTime].
  - rewrite useEffect_unfold. cbn [snd].
    destruct asset as [localUri|]; [destruct (create localUri)|]; auto.
  - rewrite frameProcessor_unfold. cbn [snd].
    destruct (admits _ _ _); [|exact Hr]. cbv zeta.
    destruct (_ || _); [exact Hr|].
    destruct (resize _ _) as [[buffer|]|e]; exact Hr.
  - destruct (posted st) as [|bgrArray rest]; [exact Hr|].
    rewrite performInference_unfold. fields.
    destruct (sessionRef st); [|exact Hr].
    cbn [snd]. unfold failed, completed.
    destruct (run _ _) as [[|[name data] tl]|e]; exact Hr.
Qed.

(** C10.  The ready flag is monotone: it starts false, an event
    that changes it is a model load that succeeded and sets it to
    true, and once true it stays true along every sequence of
    events. *)
Theorem modelReady_monotone :
  isModelReady initial = false /\
  (forall st ev,
      isModelReady (step st ev) <> isModelReady st ->
      isModelReady (step st ev) = true /\
      exists localUri session,
        ev = AssetsLoaded (Some localUri) /\ create localUri = Normal session) /\
  (forall st ev, isModelReady st = true -> isModelReady (step st ev) = true) /\
  (forall st evs, isModelReady st = true -> isModelReady (exec st evs) = true).
Proof.
  repeat apply conj.
  - reflexivity.
  - intros st ev Hne.
    destruct (isModelReady st) eqn:Hr.
    { now rewrite (ready_kept st ev Hr) in Hne. }
    split; [now destruct (isModelReady (step st ev))|].
    rewrite step_unfold in Hne.
    destruct ev as [asset|now frame|startTime endTime].
    + rewrite useEffect_unfold in Hne. cbn [snd] in Hne.
      destruct asset as [localUri|]; [|congruence].
      destruct (create localUri) as [session|e] eqn:Ec; [|fields; congruence].
      now exists localUri, session.
    + rewrite frameProcessor_unfold, Hr in Hne. cbn [snd negb] in Hne.
      rewrite orb_true_r in Hne.
      destruct (admits _ _ _); fields; congruence.
    + destruct (posted st) as [|bgrArray rest]; [congruence|].
      rewrite performInference_unfold in Hne. fields.
      destruct (sessionRef st); cbn [snd] in Hne; [|fields; congruence].
      unfold failed, completed in Hne.
      destruct (run _ _) as [[|[name data] tl]|e]; fields; congruence.
  - apply ready_kept.
  - intros st evs. revert st.
    induction evs as [|ev evs IH]; intros st Hr; [exact Hr|].
    apply IH, ready_kept, Hr.
Qed.

(** ** Numbers: signs and rounding *)

Lemma shr_1_nonneg mrs : 0 <= shr_m mrs -> 0 <= shr_m (shr_1 mrs).
Proof.
  destruct mrs as [m r s]. cbn [shr_m shr_1].
  destruct m as [|[p|p|]|[p|p|]]; cbn; lia.
Qed.

Lemma iter_shr_1_nonneg n : forall mrs,
  0 <= shr_m mrs -> 0 <= shr_m (iter_pos shr_1 n mrs).
Proof.
  induction n as [n IH|n IH|]; intros mrs H; cbn [iter_pos].
  - apply IH, IH, shr_1_nonneg, H.
  - apply IH, IH, H.
  - apply shr_1_nonneg, H.
Qed.

Lemma shr_fexp_nonneg m e l :
  0 <= m -> 0 <= shr_m (fst (shr_fexp prec emax m e l)).
Proof.
  intros H. unfold shr_fexp, shr.
  assert (H0 : 0 <= shr_m (shr_record_of_loc m l)).
  { destruct l as [|[ | | ]]; exact H. }
  destruct (_ - e); cbn [fst]; auto.
  apply iter_shr_1_nonneg, H0.
Qed.

Lemma round_nearest_even_nonneg m l : 0 <= m -> 0 <= round_nearest_even m l.
Proof.
  intros H. unfold round_nearest_even.
  destruct l as [|[ | | ]]; try lia.
  destruct (Z.even m); lia.
Qed.

(** IEEE rounding of a non-negative mantissa keeps the sign it is
    given and never yields [NaN]. *)
Lemma binary_round_aux_sign sx mx ex lx :
  0 <= mx ->
  match binary_round_aux prec emax sx mx ex lx with
  | S754_zero s | S754_infinity s | S754_finite s _ _ => s = sx
  | S754_nan => False
  end.
Proof.
  intros H. unfold binary_round_aux.
  pose proof (shr_fexp_nonneg mx ex lx H) as H1.
  destruct (shr_fexp prec emax mx ex lx) as [mrs' e']. cbn [fst] in H1.
  pose proof (shr_fexp_nonneg _ e' loc_Exact
                (round_nearest_even_nonneg _ (loc_of_shr_record mrs') H1)) as H2.
  destruct (shr_fexp prec emax _ e' loc_Exact) as [mrs'' e'']. cbn [fst] in H2.
  destruct (shr_m mrs''); [reflexivity| |lia].
  now destruct (_ <=? _).
Qed.

(** A number above the threshold is positive or [+Infinity]. *)
Lemma above_threshold_positive s :
  JS.gt s CONFIDENCE_THRESHOLD = true ->
  Prim2SF s = S754_infinity false \/
  exists m e, Prim2SF s = S754_finite false m e.
Proof.
  unfold JS.gt. rewrite FloatAxioms.ltb_spec.
  destruct (Prim2SF s) as [[|]|[|]| |[|] m e]; try discriminate; eauto.
Qed.

(** ... and so is a hundred times it. *)
Lemma times_100_nonnegative s :
  JS.gt s CONFIDENCE_THRESHOLD = true ->
  match Prim2SF (s * 100)%float with
  | S754_zero sg | S754_infinity sg | S754_finite sg _ _ => sg = false
  | S754_nan => False
  end.
Proof.
  intros H. rewrite FloatAxioms.mul_spec.
  destruct (above_threshold_positive s H) as [-> | (m & e & ->)].
  - reflexivity.
  - change (Prim2SF 100) with (S754_finite false 7036874417766400 (-46)).
    unfold SF64mul, SFmul. cbn [xorb].
    apply binary_round_aux_sign. lia.
Qed.

(** [JS.nearest q] is the integer within a half of [q], the upper
    one at a tie. *)
Lemma nearest_spec q n :
  JS.nearest q = n <-> (inject_Z n - (1 # 2) <= q < inject_Z n + (1 # 2))%Q.
Proof.
  unfold JS.nearest.
  pose proof (Qfloor_le (q + (1 # 2))) as Hlo.
  pose proof (Qlt_floor (q + (1 # 2))) as Hhi.
  rewrite inject_Z_plus in Hhi. change (inject_Z 1) with 1%Q in Hhi.
  split.
  - intros <-. split; lra.
  - intros [H1 H2].
    assert (Ha : (inject_Z (Qfloor (q + (1 # 2))) < inject_Z (n + 1))%Q)
      by (rewrite inject_Z_plus; change (inject_Z 1) with 1%Q; lra).
    assert (Hb : (inject_Z n < inject_Z (Qfloor (q + (1 # 2)) + 1))%Q)
      by (rewrite inject_Z_plus; change (inject_Z 1) with 1%Q; lra).
    rewrite <- Zlt_Qlt in Ha, Hb. lia.
Qed.

Lemma exact_nonnegative x q :
  match Prim2SF x with
  | S754_zero sg | S754_infinity sg | S754_finite sg _ _ => sg = false
  | S754_nan => False
  end ->
  JS.exact x = Some q -> (0 <= q)%Q.
Proof.
  unfold JS.exact.
  destruct (Prim2SF x) as [sg|sg| |sg m e]; intros Hs Hq; try discriminate.
  - injection Hq as <-. apply Qle_refl.
  - subst sg. injection Hq as <-.
    apply Qmult_le_0_compat; [easy|].
    apply Qpower_0_le. easy.
Qed.

(** [toFixed(0)] of a non-negative number below 10^21 is the
    unsigned digits of the nearest integer. *)
Lemma toFixed0_nonnegative x q :
  JS.exact x = Some q -> (0 <= q)%Q -> (q < inject_Z (10 ^ 21))%Q ->
  JS.toFixed0 x = JS.Digits false (JS.nearest q).
Proof.
  intros Hx H0 H21. unfold JS.toFixed0. rewrite Hx.
  assert (Ha : (Qabs q == q)%Q) by now apply Qabs_pos.
  destruct (Qle_bool (inject_Z (10 ^ 21)) (Qabs q)) eqn:E.
  { apply Qle_bool_iff in E. rewrite Ha in E. lra. }
  assert (Hp : Qle_bool 0 q = true) by now apply Qle_bool_iff.
  rewrite Hp. cbn [negb]. f_equal.
  unfold JS.nearest. now rewrite Ha.
Qed.

(** From 10^21 on, [toFixed(0)] hands over to [ToString]. *)
Lemma toFixed0_large x q :
  JS.exact x = Some q -> (0 <= q)%Q -> (inject_Z (10 ^ 21) <= q)%Q ->
  JS.toFixed0 x = JS.ViaToString x.
Proof.
  intros Hx H0 H21. unfold JS.toFixed0. rewrite Hx.
  assert (Ha : (Qabs q == q)%Q) by now apply Qabs_pos.
  assert (E : Qle_bool (inject_Z (10 ^ 21)) (Qabs q) = true).
  { apply Qle_bool_iff. now rewrite Ha. }
  now rewrite E.
Qed.

(** [Math.round(x) === 0] says that [x] is finite and lies in
    [-1/2, 1/2). *)
Lemma rounds_to_zero_spec x :
  JS.rounds_to_zero x = true <->
  exists q, JS.exact x = Some q /\ (- (1 # 2) <= q < 1 # 2)%Q.
Proof.
  unfold JS.rounds_to_zero, JS.Math_round.
  destruct (JS.exact x) as [q|]; cbn [option_map].
  - pose proof (nearest_spec q 0) as H. change (inject_Z 0) with 0%Q in H.
    split.
    + intros Hz. exists q. split; [reflexivity|].
      destruct (JS.nearest q); try discriminate.
      destruct H as [H _]. specialize (H eq_refl). lra.
    + intros (q' & [= <-] & Hq).
      destruct H as [_ H]. rewrite H; [reflexivity|lra].
  - split; [discriminate|]. now intros (q & ? & _).
Qed.

(** ** The interpretation of the output *)

(** C2.  For an output tensor whose values at index 4 and 5 are the
    score [s] and the class id [c], a result is published exactly
    when [s > 0.95] (strictly); its label is FRONT when [c] rounds
    to 0, that is when [c] is finite and in [-1/2, 1/2), and BACK
    otherwise; its confidence is [(s * 100).toFixed(0)], which for
    a product below 10^21 is the digits of the integer nearest to
    the product (the upper one at a tie), the product being the
    double [s * 100]. *)
Theorem detection_published
    session name data rest s c startTime endTime bgrArray st :
  sessionRef st = Some session ->
  run session (feeds bgrArray) = Normal ((name, data) :: rest) ->
  JS.index data 4 = Some s ->
  JS.index data 5 = Some c ->
  let published :=
    scanResult (snd (performInference startTime endTime bgrArray st)) in
  (published <> None <-> JS.gt s CONFIDENCE_THRESHOLD = true) /\
  forall r,
    published = Some r ->
    label r = (if JS.rounds_to_zero c then FRONT else BACK) /\
    (label r = FRONT <->
     exists q, JS.exact c = Some q /\ (- (1 # 2) <= q < 1 # 2)%Q) /\
    score r = JS.toFixed0 (s * 100)%float /\
    (forall q,
        JS.exact (s * 100)%float = Some q ->
        (q < inject_Z (10 ^ 21))%Q ->
        score r = JS.Digits false (JS.nearest q) /\
        (inject_Z (JS.nearest q) - (1 # 2) <= q
         < inject_Z (JS.nearest q) + (1 # 2))%Q) /\
    (forall q,
        JS.exact (s * 100)%float = Some q ->
        (inject_Z (10 ^ 21) <= q)%Q ->
        score r = JS.ViaToString (s * 100)%float) /\
    (JS.exact (s * 100)%float = None ->
     score r = JS.ViaToString (s * 100)%float).
Proof.
  intros Hs Hrun H4 H5 published. subst published.
  rewrite performInference_unfold, Hs, Hrun. cbn [snd].
  unfold completed. fields. unfold detection.
  rewrite H4, H5. cbn [JS.ToNumber].
  destruct (JS.gt s CONFIDENCE_THRESHOLD) eqn:Hgt.
  - split; [split; [reflexivity|discriminate]|].
    intros r [= <-]. cbn [label score].
    split; [reflexivity|].
    split.
    { rewrite <- rounds_to_zero_spec.
      destruct (JS.rounds_to_zero c); split; congruence. }
    split; [reflexivity|].
    pose proof (times_100_nonnegative s Hgt) as Hsign.
    split; [|split].
    + intros q Hq H21.
      split; [|now apply nearest_spec].
      apply toFixed0_nonnegative; auto.
      now apply (exact_nonnegative (s * 100)%float).
    + intros q Hq H21.
      apply (toFixed0_large _ q); auto.
      now apply (exact_nonnegative (s * 100)%float).
    + intros Hq. unfold JS.toFixed0. now rewrite Hq.
  - split; [split; congruence|].
    discriminate.
Qed.

(** C4, as the code has it.  An output tensor with fewer than six
    elements is no failure: the missing entries read as
    [undefined], the task runs through as any completed task does.
    It ends normally with the flag cleared, logs nothing, records
    the latency, and publishes no result, unless the tensor has
    five elements and a score above the threshold, in which case
    BACK is published with the score's percentage. *)
Theorem short_output_completes
    session name data rest startTime endTime bgrArray st :
  sessionRef st = Some session ->
  run session (feeds bgrArray) = Normal ((name, data) :: rest) ->
  (List.length data < 6)%nat ->
  let r := performInference startTime endTime bgrArray st in
  fst r = Normal tt /\
  snd r = completed (endTime - startTime) data st /\
  isInferenceBusy (snd r) = false /\
  console (snd r) = console st /\
  latency (snd r) = endTime - startTime /\
  scanResult (snd r) =
  match JS.index data 4 with
  | Some s =>
      if JS.gt s CONFIDENCE_THRESHOLD
      then Some {| label := BACK; score := JS.toFixed0 (s * 100)%float |}
      else None
  | None => None
  end.
Proof.
  intros Hs Hrun Hlen r. subst r.
  rewrite performInference_unfold, Hs, Hrun. cbn [fst snd].
  unfold completed. fields.
  repeat split.
  unfold detection.
  assert (H5 : JS.index data 5 = None) by (apply nth_error_None; lia).
  rewrite H5.
  destruct (JS.index data 4) as [s|]; cbn [JS.ToNumber]; reflexivity.
Qed.

(** ** The sampler *)

Lemma last_admitted_app h1 h2 :
  last_admitted (h1 ++ h2) =
  match last_admitted h2 with
  | Some t => Some t
  | None => last_admitted h1
  end.
Proof.
  induction h1 as [|[t d] h1 IH]; cbn [last_admitted app].
  - now destruct (last_admitted h2).
  - rewrite IH. now destruct (last_admitted h2).
Qed.

Lemma sampled_cons t ts st :
  sampled (t :: ts) st =
  let d := admits TARGET_FPS t (lastCall st) in
  let st' := if d then with_lastCall (Some t) st else st in
  (d :: fst (sampled ts st'), snd (sampled ts st')).
Proof.
  cbn [sampled]. unfold runAtTargetFps, bind, read.
  destruct (admits _ _ _); cbn; now destruct (sampled ts _).
Qed.

Lemma sampled_app ts1 : forall ts2 st,
  sampled (ts1 ++ ts2) st =
  (fst (sampled ts1 st) ++ fst (sampled ts2 (snd (sampled ts1 st))),
   snd (sampled ts2 (snd (sampled ts1 st))))%list.
Proof.
  induction ts1 as [|t ts1 IH]; intros ts2 st.
  - cbn. now destruct (sampled ts2 st).
  - cbn [app]. rewrite !sampled_cons. cbv zeta. cbn [fst snd].
    rewrite IH. reflexivity.
Qed.

Lemma sampled_length ts : forall st,
  List.length (fst (sampled ts st)) = List.length ts.
Proof.
  induction ts as [|t ts IH]; intros st; [reflexivity|].
  rewrite sampled_cons. cbv zeta. cbn [fst List.length]. now rewrite IH.
Qed.

(** The stored timestamp is the time of the last admitted frame, and
    each decision compares the frame's time with it. *)
Lemma sampled_history pre : forall st history t post,
  lastCall st = last_admitted history ->
  let ds := fst (sampled (pre ++ t :: post) st) in
  lastCall (snd (sampled pre st)) = last_admitted (history ++ combine pre ds) /\
  nth (List.length pre) ds false =
  admits TARGET_FPS t (last_admitted (history ++ combine pre ds)).
Proof.
  induction pre as [|t0 pre IH]; intros st history t post Hst ds; subst ds.
  - cbn [app combine List.length]. rewrite app_nil_r.
    rewrite sampled_cons. cbv zeta. cbn [fst snd nth sampled]. now rewrite Hst.
  - cbn [app]. rewrite !sampled_cons. cbv zeta. cbn [fst snd combine List.length nth].
    set (d := admits TARGET_FPS t0 (lastCall st)).
    set (st' := if d then with_lastCall (Some t0) st else st).
    assert (Hst' : lastCall st' = last_admitted (history ++ [(t0, d)])).
    { rewrite last_admitted_app. cbn [last_admitted]. subst st'.
      destruct d; [reflexivity|exact Hst]. }
    specialize (IH st' _ t post Hst'). cbv zeta in IH.
    rewrite <- app_assoc in IH. exact IH.
Qed.

(** C7.  The sampler at 2 frames per second, presented with frames
    at the times [ts] (increasing or not): its interval is 500 ms;
    it decides on every frame; the first frame is admitted; a later
    frame is admitted exactly when its time is at least one interval
    after the time of the last admitted frame; the stored timestamp
    is the time of the last admitted frame, so an admission updates
    it and a rejection leaves it as it was. *)
Theorem rate_limited ts :
  let ds := fst (sampled ts initial) in
  1000 / TARGET_FPS = 500 /\
  List.length ds = List.length ts /\
  (forall t later, ts = t :: later -> nth 0 ds false = true) /\
  (forall pre t post,
      ts = (pre ++ t :: post)%list ->
      let seen := combine pre ds in
      let admitted := nth (List.length pre) ds false in
      (admitted = true <->
       match last_admitted seen with
       | None => True
       | Some l => 500 <= t - l
       end) /\
      lastCall (snd (sampled pre initial)) = last_admitted seen /\
      lastCall (snd (sampled (pre ++ [t]) initial)) =
      if admitted then Some t else lastCall (snd (sampled pre initial))).
Proof.
  intros ds. subst ds.
  split; [reflexivity|].
  split; [apply sampled_length|].
  split.
  { intros t later ->. now rewrite sampled_cons. }
  intros pre t post ->. cbv zeta.
  destruct (sampled_history pre initial [] t post eq_refl) as [Hlast Hd].
  cbn [app] in Hlast, Hd.
  split; [|split].
  - rewrite Hd. unfold admits.
    destruct (last_admitted _) as [l|]; [|tauto].
    change (1000 / TARGET_FPS) with 500. apply Z.leb_le.
  - exact Hlast.
  - rewrite sampled_app. cbn [snd]. rewrite sampled_cons. cbv zeta. cbn [snd sampled].
    rewrite Hd, <- Hlast. clear Hd Hlast.
    now destruct (admits TARGET_FPS t _).
Qed.

(** ** The region of interest *)

Lemma of_Z_succ z : (Uint63.of_Z z + 1)%uint63 = Uint63.of_Z (z + 1).
Proof.
  apply Uint63.to_Z_inj.
  rewrite Uint63.add_spec, !Uint63.of_Z_spec, Uint63.to_Z_1.
  apply Zplus_mod_idemp_l.
Qed.

Lemma heights_overflow_spec n : forall z ch,
  heights_overflow n (Uint63.of_Z z) ch = true ->
  forall h, z <= h < z + Z.of_nat n -> overflows ch (pixel_count h) = true.
Proof.
  induction n as [|n IH]; intros z ch H h Hh; [lia|].
  cbn [heights_overflow] in H. apply andb_prop in H as [H0 H1].
  destruct (Z.eq_dec h z) as [->|Hne]; [exact H0|].
  rewrite of_Z_succ in H1.
  apply (IH (z + 1) ch H1). lia.
Qed.

Lemma widths_overflow_spec n : forall z,
  0 <= z ->
  z + Z.of_nat n < 2 ^ 62 ->
  widths_overflow n (Uint63.of_Z z) = true ->
  forall w,
    z <= w < z + Z.of_nat n ->
    heights_overflow (short_heights w) 0%uint63
      (pixel_count w * 0.83 * 1.62)%float = true.
Proof.
  induction n as [|n IH]; intros z Hz Hb H w Hw; [lia|].
  cbn [widths_overflow] in H. apply andb_prop in H as [H0 H1].
  destruct (Z.eq_dec w z) as [->|Hne].
  - rewrite Uint63.of_Z_spec, Z.mod_small in H0; [exact H0|].
    change wB with (2 ^ 63). lia.
  - rewrite of_Z_succ in H1.
    apply (IH (z + 1)); auto; lia.
Qed.

Lemma crop_overflows_upto_spec W :
  W < 2 ^ 61 ->
  crop_overflows_upto W = true ->
  forall w h,
    1 <= w <= W -> 0 <= h -> 10000 * h < 13446 * w ->
    crop_overflows w h = true.
Proof.
  unfold crop_overflows_upto. intros HW H w h Hw Hh Hlt.
  assert (Hb : 1 + Z.of_nat (Z.to_nat W) < 2 ^ 62) by (rewrite Z2Nat.id; lia).
  assert (Hrow := widths_overflow_spec _ 1 ltac:(lia) Hb H w).
  rewrite Z2Nat.id in Hrow by lia.
  specialize (Hrow ltac:(lia)).
  apply (heights_overflow_spec _ 0 _ Hrow).
  unfold short_heights. split; [exact Hh|].
  rewrite Z2Nat.id by (apply Z.div_pos; lia).
  assert (h + 1 <= (13446 * w + 9999) / 10000)
    by (apply Z.div_le_lower_bound; lia).
  lia.
Qed.

(** Every frame up to 8192 pixels wide, checked one by one. *)
Lemma crop_overflows_checked : crop_overflows_upto 8192 = true.
Proof. vm_compute. reflexivity. Qed.


(** * More of the pipeline *)

(** ** The display (lines 15-19 and 110-152) *)

(** The overlay rectangle, for a window [WINDOW_WIDTH] wide. *)
Definition CARD_WIDTH (WINDOW_WIDTH : float) : float := (WINDOW_WIDTH * 0.83)%float.
Definition CARD_HEIGHT (WINDOW_WIDTH : float) : float :=
  (CARD_WIDTH WINDOW_WIDTH * 1.62)%float.

(** What [useCameraDevice('back')] found. *)
Inductive CameraDevice := BackCamera (id : string).

(** A child of a [Text] element: a string, a number, or the string
    [toFixed] returned. *)
Inductive child :=
| Str (s : string)
| Num (n : Z)
| Fixed (f : JS.fixed).

(** The labels are the strings ["FRONT"] and ["BACK"]. *)
Definition label_name (l : Label) : string :=
  match l with
  | FRONT => "FRONT"
  | BACK => "BACK"
  end.

(** What the returned tree shows, as far as it depends on anything:
    the camera and its frame format, the size and border colour of
    the rectangle, the hint inside it, the status line, and the
    result line when there is one. *)
Record View := {
  camera : CameraDevice;
  camera_pixelFormat : string;
  rectangle : float * float;
  borderColor : string;
  hintColor : string;
  hintText : string;
  infoText : list child;
  resultText : option (list child)
}.

(** The value [App] returns (lines 110-152). *)
Definition render (WINDOW_WIDTH : float) (device : option CameraDevice)
    (st : State) : option View :=
  match device with
  | None => None
  | Some device =>
      Some
        {| camera := device;
           camera_pixelFormat := "yuv";
           rectangle := (CARD_WIDTH WINDOW_WIDTH, CARD_HEIGHT WINDOW_WIDTH);
           borderColor :=
             match scanResult st with Some _ => "#00FF00" | None => "white" end;
           hintColor :=
             match scanResult st with Some _ => "#00FF00" | None => "white" end;
           hintText :=
             match scanResult st with
             | Some r => label_name (label r) ++ " DETECTED"
             | None => "ALIGN ID CARD"
             end;
           infoText :=
             [Str "Status: "; Str (modelStatus st); Str " | ";
              Num (latency st); Str "ms"];
           resultText :=
             match scanResult st with
             | Some r =>
                 Some [Str "IDENTIFIED: "; Str (label_name (label r)); Str " (";
                       Fixed (score r); Str "%)"]
             | None => None
             end |}
  end.

(** ** Kinds of events *)

Definition is_frame (ev : event) : bool :=
  match ev with
  | CameraFrame _ _ => true
  | _ => false
  end.

(** The clock of every posted call in [evs] runs forwards. *)
Definition clocks_ordered (evs : list event) : Prop :=
  forall startTime endTime, In (RunPosted startTime endTime) evs -> startTime <= endTime.

(** Where a console line comes from: the [catch] of the frame
    processor, after [resize] threw, or the [catch] of
    [performInference], after the engine threw or returned no output
    to read. *)
Definition logged (line : string) : Prop :=
  (exists frame options e,
      resize frame options = Throw e /\ line = "Worklet Error: " ++ e) \/
  (exists session fed e,
      run session fed = Throw e /\ line = "Inference Error: " ++ e) \/
  (exists session fed,
      run session fed = Normal [] /\
      line = "Inference Error: Cannot read property 'data' of undefined").

(** What holds of the status text in every reachable state. *)
Definition status_consistent (st : State) : Prop :=
  (modelStatus st = "Loading..." \/ modelStatus st = "✅ Ready" \/
   modelStatus st = "❌ Error") /\
  (modelStatus st = "Loading..." -> st = with_lastCall (lastCall st) initial) /\
  (modelStatus st = "✅ Ready" -> isModelReady st = true) /\
  (isModelReady st = false ->
   st = with_lastCall (lastCall st) (with_modelStatus (modelStatus st) initial)).

(** ** Frames *)

Lemma with_lastCall_same st : with_lastCall (lastCall st) st = st.
Proof. now destruct st. Qed.

Lemma with_lastCall_twice a b st :
  with_lastCall a (with_lastCall b st) = with_lastCall a st.
Proof. reflexivity. Qed.

(** The view is a function of the three pieces of React state. *)
Lemma render_ext W device st st' :
  modelStatus st' = modelStatus st ->
  scanResult st' = scanResult st ->
  latency st' = latency st ->
  render W device st' = render W device st.
Proof. unfold render. now intros -> -> ->. Qed.

Lemma busy_frame_step st now frame :
  isInferenceBusy st = true ->
  step st (CameraFrame now frame) =
  if admits TARGET_FPS now (lastCall st) then with_lastCall (Some now) st else st.
Proof.
  intros Hb. rewrite step_unfold, frameProcessor_unfold, Hb. reflexivity.
Qed.

(** X1.  Back-pressure.  While a call holds the gate, any number of
    frames leave everything but the sampler's timestamp as it was:
    the waiting call is neither replaced nor joined by another, the
    flag stays set, nothing is published or logged, and what
    [resize] would do with the frames plays no part. *)
Theorem frames_dropped_while_busy evs : forall st,
  isInferenceBusy st = true ->
  forallb is_frame evs = true ->
  exec st evs = with_lastCall (lastCall (exec st evs)) st.
Proof.
  induction evs as [|ev evs IH]; intros st Hb Hf.
  - cbn. now rewrite with_lastCall_same.
  - cbn [forallb] in Hf. apply andb_prop in Hf as [Hev Hf].
    destruct ev as [asset|now frame|startTime endTime]; try discriminate Hev.
    cbn [exec fold_left]. fold (exec (step st (CameraFrame now frame)) evs).
    rewrite busy_frame_step by exact Hb.
    destruct (admits _ _ _).
    + rewrite (IH (with_lastCall (Some now) st)) at 1 by (fields; auto).
      now rewrite with_lastCall_twice.
    + now apply IH.
Qed.

Lemma frame_step_display st now frame :
  let st' := step st (CameraFrame now frame) in
  modelStatus st' = modelStatus st /\
  scanResult st' = scanResult st /\
  latency st' = latency st /\
  sessionRef st' = sessionRef st /\
  isModelReady st' = isModelReady st.
Proof.
  cbv zeta. rewrite step_unfold, frameProcessor_unfold. cbn [snd].
  destruct (admits _ _ _); [|now repeat split]. cbv zeta.
  destruct (_ || _); [now repeat split|].
  destruct (resize _ _) as [[buffer|]|e]; now repeat split.
Qed.

(** X2.  The frame processor never touches what the display reads:
    after any number of frames, in any state and whatever [resize]
    does, the status text, the published result and the latency are
    as before, and so is the rendered view; nor does a frame change
    the session or the ready flag. *)
Theorem frames_keep_view W device evs : forall st,
  forallb is_frame evs = true ->
  render W device (exec st evs) = render W device st /\
  modelStatus (exec st evs) = modelStatus st /\
  scanResult (exec st evs) = scanResult st /\
  latency (exec st evs) = latency st /\
  sessionRef (exec st evs) = sessionRef st /\
  isModelReady (exec st evs) = isModelReady st.
Proof.
  assert (H : forall st,
             forallb is_frame evs = true ->
             modelStatus (exec st evs) = modelStatus st /\
             scanResult (exec st evs) = scanResult st /\
             latency (exec st evs) = latency st /\
             sessionRef (exec st evs) = sessionRef st /\
             isModelReady (exec st evs) = isModelReady st).
  { induction evs as [|ev evs IH]; intros st Hf; [now repeat split|].
    cbn [forallb] in Hf. apply andb_prop in Hf as [Hev Hf].
    destruct ev as [asset|now frame|startTime endTime]; try discriminate Hev.
    cbn [exec fold_left]. fold (exec (step st (CameraFrame now frame)) evs).
    destruct (IH (step st (CameraFrame now frame)) Hf) as (-> & -> & -> & -> & ->).
    apply frame_step_display. }
  intros st Hf. destruct (H st Hf) as (Hm & Hr & Hl & Hs & Hy).
  split; [now apply render_ext|now repeat split].
Qed.

Lemma lastCall_kept st ev : is_frame ev = false -> lastCall (step st ev) = lastCall st.
Proof.
  intros Hev. rewrite step_unfold.
  destruct ev as [asset|now frame|startTime endTime]; try discriminate Hev.
  - rewrite useEffect_unfold. cbn [snd].
    destruct asset as [localUri|]; [destruct (create localUri)|]; reflexivity.
  - destruct (posted st) as [|bgrArray rest]; [reflexivity|].
    rewrite performInference_unfold. fields.
    destruct (sessionRef st); [|reflexivity].
    cbn [snd]. unfold failed, completed.
    now destruct (run _ _) as [[|[name data] tl]|e].
Qed.

Lemma lastCall_kept_exec mid : forall st,
  forallb (fun ev => negb (is_frame ev)) mid = true ->
  lastCall (exec st mid) = lastCall st.
Proof.
  induction mid as [|ev mid IH]; intros st H; [reflexivity|].
  cbn [forallb] in H. apply andb_prop in H as [Hev H].
  apply negb_true_iff in Hev.
  cbn [exec fold_left]. fold (exec (step st ev) mid).
  rewrite IH by exact H. now apply lastCall_kept.
Qed.

(** X3.  A frame that passes the sampler uses up the interval whether
    or not it starts an inference: whatever the JS thread does next
    (a task ends and frees the gate, the model loads), a frame that
    arrives less than 500 ms later is ignored altogether. *)
Theorem frame_within_interval_ignored st now frame mid now' frame' :
  admits TARGET_FPS now (lastCall st) = true ->
  forallb (fun ev => negb (is_frame ev)) mid = true ->
  now' - now < 500 ->
  let st' := exec (step st (CameraFrame now frame)) mid in
  lastCall st' = Some now /\
  step st' (CameraFrame now' frame') = st'.
Proof.
  intros Ha Hmid Hlt st'.
  assert (Hl : lastCall st' = Some now).
  { subst st'. rewrite lastCall_kept_exec by exact Hmid.
    rewrite step_unfold, frameProcessor_unfold, Ha. cbn [snd]. cbv zeta.
    destruct (_ || _); [reflexivity|].
    now destruct (resize _ _) as [[buffer|]|e]. }
  split; [exact Hl|].
  rewrite step_unfold, frameProcessor_unfold, Hl. cbn [snd admits].
  change (1000 / TARGET_FPS) with 500.
  destruct (500 <=? now' - now) eqn:E; [apply Z.leb_le in E; lia|reflexivity].
Qed.

Lemma acquires_frame st ev :
  acquires st ev = true ->
  exists now frame buffer,
    ev = CameraFrame now frame /\
    admits TARGET_FPS now (lastCall st) = true /\
    resize frame (resizeOptions frame) = Normal (Some buffer) /\
    step st ev =
    with_posted (posted st ++ [buffer])
      (with_isInferenceBusy true (with_lastCall (Some now) st)).
Proof.
  intros H. pose proof (acquires_ready st ev H) as Hr.
  unfold acquires in H. apply andb_prop in H as [Hb Hc].
  apply negb_true_iff in Hb.
  destruct ev as [asset|now frame|startTime endTime].
  - rewrite step_unfold, useEffect_unfold in Hc. cbn [snd] in Hc.
    destruct asset as [localUri|]; [destruct (create localUri)|]; fields; congruence.
  - rewrite step_unfold, frameProcessor_unfold, Hb, Hr in *. cbn [snd orb negb] in *.
    destruct (admits _ _ _) eqn:Ha; [|congruence]. cbv zeta in *.
    destruct (resize _ _) as [[buffer|]|e] eqn:Hz; fields; try congruence.
    now exists now, frame, buffer.
  - rewrite step_unfold in Hc.
    destruct (posted st) as [|bgrArray rest]; [congruence|].
    rewrite performInference_unfold in Hc. fields.
    destruct (sessionRef st); cbn [snd] in Hc; [|fields; congruence].
    unfold failed, completed in Hc.
    destruct (run _ _) as [[|[name data] tl]|e]; fields; congruence.
Qed.

(** The sampler's timestamp never falls below [t] while every frame
    arrives at [t] or later. *)
Lemma lastCall_bounded mid : forall st t l,
  lastCall st = Some l ->
  t <= l ->
  (forall now frame, In (CameraFrame now frame) mid -> t <= now) ->
  exists l', lastCall (exec st mid) = Some l' /\ t <= l'.
Proof.
  induction mid as [|ev mid IH]; intros st t l Hl Ht Hmid; [now exists l|].
  cbn [exec fold_left]. fold (exec (step st ev) mid).
  assert (Hmid' : forall now frame, In (CameraFrame now frame) mid -> t <= now)
    by (intros now frame Hin; apply (Hmid now frame); now right).
  destruct (is_frame ev) eqn:Hev.
  - destruct ev as [asset|now frame|startTime endTime]; try discriminate Hev.
    assert (Hnow : t <= now) by (apply (Hmid now frame); now left).
    assert (Hstep : lastCall (step st (CameraFrame now frame)) = Some l \/
                    lastCall (step st (CameraFrame now frame)) = Some now).
    { rewrite step_unfold, frameProcessor_unfold. cbn [snd].
      destruct (admits _ _ _); [right|now left]. cbv zeta.
      destruct (_ || _); [reflexivity|].
      now destruct (resize _ _) as [[buffer|]|e]. }
    destruct Hstep as [H|H]; eapply IH; eauto.
  - apply (IH (step st ev) t l); auto.
    now rewrite lastCall_kept.
Qed.

(** X4.  At most two inferences a second.  When no frame arrives
    with a time before that of a frame that took the gate, the next
    frame that takes the gate comes at least 500 ms after it,
    however quickly the task in between has ended. *)
Theorem acquisitions_spaced st evs1 now1 frame1 mid now2 frame2 :
  acquires (exec st evs1) (CameraFrame now1 frame1) = true ->
  (forall now frame, In (CameraFrame now frame) mid -> now1 <= now) ->
  acquires (exec st (evs1 ++ CameraFrame now1 frame1 :: mid))
    (CameraFrame now2 frame2) = true ->
  now1 + 500 <= now2.
Proof.
  intros H1 Hmid H2.
  apply acquires_frame in H1 as (n1 & f1 & b1 & [= <- <-] & _ & _ & Hstep1).
  apply acquires_frame in H2 as (n2 & f2 & b2 & [= <- <-] & Ha2 & _ & _).
  rewrite exec_app in Ha2. cbn [exec fold_left] in Ha2.
  fold (exec (step (exec st evs1) (CameraFrame now1 frame1)) mid) in Ha2.
  destruct (lastCall_bounded mid (step (exec st evs1) (CameraFrame now1 frame1))
              now1 now1) as (l' & Hl' & Hle); auto.
  { now rewrite Hstep1. }
  { lia. }
  rewrite Hl' in Ha2. cbn [admits] in Ha2.
  change (1000 / TARGET_FPS) with 500 in Ha2.
  apply Z.leb_le in Ha2. lia.
Qed.

(** ** From a frame to a result *)

(** X5.  End to end.  In a state with the gate free and the model
    ready, a frame that passes the sampler and is resized, followed
    by the run of the posted call, leaves the state a task leaves
    behind when the engine is fed exactly the bytes [resize]
    returned, as a [uint8] tensor of shape [240, 320, 3] named
    [image_buffer]: a published result, the latency and a free gate,
    or a logged error and a free gate; nothing stays posted. *)
Theorem frame_to_result st now frame buffer session startTime endTime :
  admits TARGET_FPS now (lastCall st) = true ->
  isInferenceBusy st = false ->
  isModelReady st = true ->
  sessionRef st = Some session ->
  posted st = [] ->
  resize frame (resizeOptions frame) = Normal (Some buffer) ->
  exec st [CameraFrame now frame; RunPosted startTime endTime] =
  match
    run session
      [("image_buffer",
        {| tensor_type := "uint8"; tensor_data := buffer; dims := [240; 320; 3] |})]
  with
  | Throw e => failed e (with_lastCall (Some now) st)
  | Normal [] =>
      failed "Cannot read property 'data' of undefined" (with_lastCall (Some now) st)
  | Normal ((_, data) :: _) =>
      completed (endTime - startTime) data (with_lastCall (Some now) st)
  end.
Proof.
  intros Ha Hb Hr Hs Hp Hz.
  cbn [exec fold_left].
  rewrite (frame_acquires now frame buffer st Ha Hb Hr Hz), Hp.
  rewrite step_unfold. fields. cbn [app].
  rewrite performInference_unfold. fields. rewrite Hs. cbn [snd].
  change (feeds buffer) with
    [("image_buffer",
      {| tensor_type := "uint8"; tensor_data := buffer; dims := [240; 320; 3] |})].
  destruct st as [ms sr la se re bu lc po co]. cbn in Hp, Hb. subst po bu.
  now destruct (run _ _) as [[|[name data] tl]|e].
Qed.

(** X6.  The published result is a function of two numbers.  Two
    completed tasks whose first output tensors agree at index 4 and
    at index 5 publish the same result, whatever the states they
    started from, the buffers they were given, the names and the
    other entries of the tensors, and the other outputs. *)
Theorem detection_reads_two_entries
    st1 st2 session1 session2 bgr1 bgr2 name1 name2 data1 data2 rest1 rest2
    start1 end1 start2 end2 :
  sessionRef st1 = Some session1 ->
  sessionRef st2 = Some session2 ->
  run session1 (feeds bgr1) = Normal ((name1, data1) :: rest1) ->
  run session2 (feeds bgr2) = Normal ((name2, data2) :: rest2) ->
  JS.index data1 4 = JS.index data2 4 ->
  JS.index data1 5 = JS.index data2 5 ->
  scanResult (snd (performInference start1 end1 bgr1 st1)) =
  scanResult (snd (performInference start2 end2 bgr2 st2)).
Proof.
  intros Hs1 Hs2 Hr1 Hr2 H4 H5.
  rewrite !performInference_unfold, Hs1, Hs2, Hr1, Hr2. cbn [snd].
  unfold completed. fields. unfold detection. now rewrite H4, H5.
Qed.

(** ** What the display shows *)

(** X7.  A failed inference does not show.  When the engine throws
    or returns no output to read, the view rendered after the task
    is the view rendered before it: a result published earlier stays
    on screen and the latency shown is still that of the last
    completed task. *)
Theorem failure_keeps_view W device session startTime endTime bgrArray st :
  sessionRef st = Some session ->
  (exists e, run session (feeds bgrArray) = Throw e) \/
  run session (feeds bgrArray) = Normal [] ->
  render W device (snd (performInference startTime endTime bgrArray st)) =
  render W device st.
Proof.
  intros Hs Hrun. rewrite performInference_unfold, Hs. cbn [snd].
  apply render_ext; destruct Hrun as [[e ->] | ->]; reflexivity.
Qed.

(** X8.  A completed inference shows at once and alone.  After a
    task whose engine call returned, the view has the status text it
    had, the latency of this task, and the result of this task only:
    green, the label and the percentage when the score is above the
    threshold; white, the hint and no result line when it is not,
    whatever was shown before. *)
Theorem completion_view
    W device session name data rest startTime endTime bgrArray st :
  sessionRef st = Some session ->
  run session (feeds bgrArray) = Normal ((name, data) :: rest) ->
  render W (Some device) (snd (performInference startTime endTime bgrArray st)) =
  Some
    {| camera := device;
       camera_pixelFormat := "yuv";
       rectangle := (CARD_WIDTH W, CARD_HEIGHT W);
       borderColor := if JS.gt (JS.ToNumber (JS.index data 4)) CONFIDENCE_THRESHOLD
                      then "#00FF00" else "white";
       hintColor := if JS.gt (JS.ToNumber (JS.index data 4)) CONFIDENCE_THRESHOLD
                    then "#00FF00" else "white";
       hintText :=
         if JS.gt (JS.ToNumber (JS.index data 4)) CONFIDENCE_THRESHOLD
         then (if JS.rounds_to_zero (JS.ToNumber (JS.index data 5))
               then "FRONT DETECTED" else "BACK DETECTED")
         else "ALIGN ID CARD";
       infoText :=
         [Str "Status: "; Str (modelStatus st); Str " | ";
          Num (endTime - startTime); Str "ms"];
       resultText :=
         if JS.gt (JS.ToNumber (JS.index data 4)) CONFIDENCE_THRESHOLD
         then Some [Str "IDENTIFIED: ";
                    Str (if JS.rounds_to_zero (JS.ToNumber (JS.index data 5))
                         then "FRONT" else "BACK");
                    Str " (";
                    Fixed (JS.toFixed0 (JS.ToNumber (JS.index data 4) * 100)%float);
                    Str "%)"]
         else None |}.
Proof.
  intros Hs Hrun. rewrite performInference_unfold, Hs, Hrun. cbn [snd].
  unfold render, completed. fields. unfold detection.
  destruct (JS.gt _ _); [|reflexivity].
  cbn [label score]. now destruct (JS.rounds_to_zero _).
Qed.

(** X9.  The overlay does not fit a wide window.  The rectangle
    drawn over the preview is the crop rectangle of a frame as wide
    as the window; in a window of whole-number size, up to 8192
    wide, whose height is below 1.3446 times its width (any
    landscape or square window), the rectangle is taller than the
    window. *)
Theorem overlay_taller_than_window W H device st :
  1 <= W <= 8192 ->
  0 <= H ->
  10000 * H < 13446 * W ->
  (forall frame,
      width frame = pixel_count W ->
      option_map rectangle (render (pixel_count W) (Some device) st)
      = Some (cropW frame, cropH frame)) /\
  (pixel_count H <? CARD_HEIGHT (pixel_count W))%float = true.
Proof.
  intros HW HH Hlt. split.
  - intros frame Hw. cbn. unfold CARD_HEIGHT, CARD_WIDTH, cropH, cropW.
    now rewrite Hw.
  - pose proof (crop_overflows_upto_spec 8192 ltac:(lia) crop_overflows_checked
                  W H HW HH Hlt) as Hc.
    unfold crop_overflows, overflows in Hc.
    now apply andb_prop in Hc as [_ Hc].
Qed.

(** ** What every reachable state satisfies *)

Lemma status_consistent_initial : status_consistent initial.
Proof. unfold status_consistent. cbn. repeat split; auto; discriminate. Qed.

Lemma status_consistent_step st ev :
  status_consistent st -> status_consistent (step st ev).
Proof.
  unfold status_consistent. intros (HA & HB & HC & HD).
  assert (Er : isModelReady st = true \/ isModelReady st = false)
    by (destruct (isModelReady st); auto).
  assert (HB' : isModelReady st = true -> modelStatus st <> "Loading...").
  { intros Hr Hm. specialize (HB Hm). rewrite HB in Hr. discriminate Hr. }
  rewrite step_unfold.
  destruct ev as [asset|now frame|startTime endTime].
  - rewrite useEffect_unfold. cbn [snd].
    destruct asset as [localUri|]; [|tauto].
    destruct (create localUri) as [session|e]; fields.
    + repeat split; auto; discriminate.
    + repeat split; auto; try discriminate.
      intros Hr. rewrite (HD Hr) at 1. reflexivity.
  - rewrite frameProcessor_unfold. cbn [snd].
    destruct (admits _ _ _); [|tauto]. cbv zeta.
    destruct Er as [Er|Er].
    + rewrite Er. cbn [negb]. rewrite orb_false_r.
      destruct (isInferenceBusy st);
        [|destruct (resize _ _) as [[buffer|]|e]]; fields;
        repeat split; auto; try tauto; congruence.
    + rewrite Er. cbn [negb]. rewrite orb_true_r. fields.
      repeat split; auto.
      * intros Hm. rewrite (HB Hm) at 1. reflexivity.
      * intros _. rewrite (HD Er) at 1. reflexivity.
  - destruct Er as [Er|Er].
    + destruct (posted st) as [|bgrArray rest]; [tauto|].
      rewrite performInference_unfold. fields.
      destruct (sessionRef st); cbn [snd]; unfold failed, completed;
        [destruct (run _ _) as [[|[name data] tl]|e]|]; fields;
        repeat split; auto; try tauto; congruence.
    + assert (Hp : posted st = []) by now rewrite (HD Er).
      rewrite Hp. tauto.
Qed.

Lemma status_consistent_exec evs : forall st,
  status_consistent st -> status_consistent (exec st evs).
Proof.
  induction evs as [|ev evs IH]; intros st H; [exact H|].
  apply IH, status_consistent_step, H.
Qed.

(** X10.  What the status text tells.  In every reachable state the
    status is one of the three texts; while it reads [Loading...]
    nothing at all has happened but frames being sampled; when it
    reads [Ready] the ready flag is set and a session is stored; and
    a published result, a latency, a held gate or a console line are
    only ever there once the model is ready. *)
Theorem status_tells evs :
  let st := exec initial evs in
  (modelStatus st = "Loading..." \/ modelStatus st = "✅ Ready" \/
   modelStatus st = "❌ Error") /\
  (modelStatus st = "Loading..." -> st = with_lastCall (lastCall st) initial) /\
  (modelStatus st = "✅ Ready" -> isModelReady st = true /\ sessionRef st <> None) /\
  (scanResult st <> None \/ latency st <> 0 \/ isInferenceBusy st = true \/
   console st <> [] ->
   isModelReady st = true).
Proof.
  intros st.
  destruct (status_consistent_exec evs initial status_consistent_initial)
    as (HA & HB & HC & HD). fold st in HA, HB, HC, HD.
  destruct (reachable_consistent evs) as (Hready & _). fold st in Hready.
  repeat split; auto.
  intros H. destruct (isModelReady st); [reflexivity|].
  specialize (HD eq_refl). rewrite HD in H. fields. cbn in H.
  destruct H as [H|[H|[H|H]]]; congruence.
Qed.

Lemma latency_step st ev :
  latency (step st ev) = latency st \/
  exists startTime endTime,
    ev = RunPosted startTime endTime /\ latency (step st ev) = endTime - startTime.
Proof.
  rewrite step_unfold.
  destruct ev as [asset|now frame|startTime endTime].
  - left. rewrite useEffect_unfold. cbn [snd].
    destruct asset as [localUri|]; [destruct (create localUri)|]; reflexivity.
  - left. apply frame_step_display.
  - destruct (posted st) as [|bgrArray rest]; [now left|].
    rewrite performInference_unfold. fields.
    destruct (sessionRef st); [|now left].
    cbn [snd]. unfold failed, completed.
    destruct (run _ _) as [[|[name data] tl]|e]; fields; auto.
    right. now exists startTime, endTime.
Qed.

Lemma latency_exec evs : forall st,
  latency (exec st evs) = latency st \/
  exists startTime endTime,
    In (RunPosted startTime endTime) evs /\
    latency (exec st evs) = endTime - startTime.
Proof.
  induction evs as [|ev evs IH]; intros st; [now left|].
  cbn [exec fold_left]. fold (exec (step st ev) evs).
  destruct (IH (step st ev)) as [H|(t0 & t1 & Hin & H)].
  - rewrite H.
    destruct (latency_step st ev) as [H'|(t0 & t1 & -> & H')]; [now left|].
    right. exists t0, t1. split; [now left|exact H'].
  - right. exists t0, t1. split; [now right|exact H].
Qed.

(** X11.  The latency shown is that of a task that ran.  In every
    reachable state the latency is 0, as at the start, or the
    difference of the two clock readings of one of the posted calls
    that were run; so it is never negative as long as the clock of
    each call runs forwards. *)
Theorem latency_of_a_run evs :
  let st := exec initial evs in
  (latency st = 0 \/
   exists startTime endTime,
     In (RunPosted startTime endTime) evs /\ latency st = endTime - startTime) /\
  (clocks_ordered evs -> 0 <= latency st).
Proof.
  intros st. pose proof (latency_exec evs initial) as H. fold st in H.
  split; [exact H|].
  intros Hclock. destruct H as [H|(t0 & t1 & Hin & H)]; rewrite H.
  - cbn. lia.
  - specialize (Hclock t0 t1 Hin). lia.
Qed.

Lemma console_step st ev :
  console (step st ev) = console st \/
  exists line, logged line /\ console (step st ev) = (console st ++ [line])%list.
Proof.
  rewrite step_unfold.
  destruct ev as [asset|now frame|startTime endTime].
  - left. rewrite useEffect_unfold. cbn [snd].
    destruct asset as [localUri|]; [destruct (create localUri)|]; reflexivity.
  - rewrite frameProcessor_unfold. cbn [snd].
    destruct (admits _ _ _); [|now left]. cbv zeta.
    destruct (_ || _); [now left|].
    destruct (resize frame (resizeOptions frame)) as [[buffer|]|e] eqn:Hz;
      [now left|now left|].
    right. exists ("Worklet Error: " ++ e). split; [|reflexivity].
    left. now exists frame, (resizeOptions frame), e.
  - destruct (posted st) as [|bgrArray rest]; [now left|].
    rewrite performInference_unfold. fields.
    destruct (sessionRef st) as [session|]; [|now left].
    cbn [snd]. unfold failed, completed.
    destruct (run session (feeds bgrArray)) as [[|[name data] tl]|e] eqn:Hr; fields.
    + right. eexists. split; [|reflexivity].
      right. right. now exists session, (feeds bgrArray).
    + now left.
    + right. exists ("Inference Error: " ++ e). split; [|reflexivity].
      right. left. now exists session, (feeds bgrArray), e.
Qed.

Lemma console_exec evs : forall st,
  Forall logged (console st) -> Forall logged (console (exec st evs)).
Proof.
  induction evs as [|ev evs IH]; intros st H; [exact H|].
  cbn [exec fold_left]. apply IH.
  destruct (console_step st ev) as [->|(line & Hline & ->)]; [exact H|].
  apply Forall_app. split; [exact H|]. now constructor.
Qed.

(** X12.  The console holds errors only.  Every line written in any
    run of the pipeline is the line of one of the two [catch] blocks,
    with the message of an error that [resize] or the engine threw,
    or of the failed read of an empty output; so with a [resize]
    that does not throw and an engine that always returns an output,
    nothing is ever written. *)
Theorem console_holds_errors evs :
  Forall logged (console (exec initial evs)) /\
  ((forall frame options e, resize frame options <> Throw e) ->
   (forall session fed, exists output rest, run session fed = Normal (output :: rest)) ->
   console (exec initial evs) = []).
Proof.
  assert (H : Forall logged (console (exec initial evs)))
    by (apply console_exec; constructor).
  split; [exact H|].
  intros Hresize Hrun.
  destruct (console (exec initial evs)) as [|line lines]; [reflexivity|].
  apply Forall_inv in H.
  destruct H as [(frame & options & e & Hz & _)
                |[(session & fed & e & Hr & _)|(session & fed & Hr & _)]].
  - now destruct (Hresize frame options e).
  - destruct (Hrun session fed) as (o & r & Ho). congruence.
  - destruct (Hrun session fed) as (o & r & Ho). congruence.
Qed.

(** ** The early return *)

Lemma stuck_step st ev :
  isInferenceBusy st = true -> posted st = [] ->
  isInferenceBusy (step st ev) = true /\ posted (step st ev) = [].
Proof.
  intros Hb Hp.
  destruct ev as [asset|now frame|startTime endTime].
  - rewrite step_unfold, useEffect_unfold. cbn [snd].
    destruct asset as [localUri|]; [destruct (create localUri)|]; now fields.
  - rewrite busy_frame_step by exact Hb.
    now destruct (admits _ _ _).
  - now rewrite step_unfold, Hp.
Qed.

(** X13.  The guard of line 49 returns before the [try]: a call of
    [performInference] that finds no session leaves the busy flag
    set.  With the flag set and nothing posted, nothing ever clears
    it again: whatever happens afterwards (frames, model loads, runs
    of the JS thread), no frame takes the gate and nothing is
    published. *)
Theorem stuck_without_session st bgrArray startTime endTime evs :
  sessionRef st = None ->
  isInferenceBusy st = true ->
  posted st = [bgrArray] ->
  let st' := exec st (RunPosted startTime endTime :: evs) in
  isInferenceBusy st' = true /\
  posted st' = [] /\
  scanResult st' = scanResult st /\
  latency st' = latency st.
Proof.
  intros Hs Hb Hp st'. subst st'. cbn [exec fold_left].
  fold (exec (step st (RunPosted startTime endTime)) evs).
  assert (H0 : step st (RunPosted startTime endTime) = with_posted [] st).
  { rewrite step_unfold, Hp, performInference_unfold. fields. now rewrite Hs. }
  rewrite H0.
  assert (H : forall s,
             isInferenceBusy s = true -> posted s = [] ->
             isInferenceBusy (exec s evs) = true /\ posted (exec s evs) = [] /\
             scanResult (exec s evs) = scanResult s /\
             latency (exec s evs) = latency s).
  { induction evs as [|ev evs IH]; intros s Hsb Hsp; [now repeat split|].
    cbn [exec fold_left]. fold (exec (step s ev) evs).
    destruct (stuck_step s ev Hsb Hsp) as [Hsb' Hsp'].
    destruct (IH (step s ev) Hsb' Hsp') as (-> & -> & -> & ->).
    repeat split.
    - rewrite step_unfold.
      destruct ev as [asset|now frame|t0 t1].
      + rewrite useEffect_unfold. cbn [snd].
        destruct asset as [localUri|]; [destruct (create localUri)|]; reflexivity.
      + apply frame_step_display.
      + now rewrite Hsp.
    - destruct (latency_step s ev) as [H|(t0 & t1 & -> & _)]; [exact H|].
      rewrite step_unfold. now rewrite Hsp. }
  destruct (H (with_posted [] st)) as (H1 & H2 & H3 & H4); auto.
Qed.

End Pipeline.

(** * Concrete runs *)

(** Collaborators that succeed, and collaborators that fail. *)
Definition create_ok : string -> completion InferenceSession :=
  fun localUri => Normal (Session localUri).

Definition create_fails : string -> completion InferenceSession :=
  fun _ => Throw "failed to load model".

Definition resize_ok : Frame -> ResizeOptions -> completion (option bytes) :=
  fun _ _ => Normal (Some [Byte.x10; Byte.x20; Byte.x30]).

Definition resize_falsy : Frame -> ResizeOptions -> completion (option bytes) :=
  fun _ _ => Normal None.

Definition resize_throws : Frame -> ResizeOptions -> completion (option bytes) :=
  fun _ _ => Throw "unsupported pixel format".

Definition engine (data : list float)
  : InferenceSession -> list (string * Tensor) -> completion Outputs :=
  fun _ _ => Normal [("output0", data)].

Definition engine_throws
  : InferenceSession -> list (string * Tensor) -> completion Outputs :=
  fun _ _ => Throw "session.run failed".

(** A landscape frame of 1920 by 1080 pixels. *)
Definition landscape : Frame :=
  {| width := 1920; height := 1080; pixelFormat := "yuv"; pixels := [] |}.

(** The model has loaded, a task holds the gate, and an earlier task
    has published FRONT at 97 percent after 80 ms. *)
Definition running : State :=
  {| modelStatus := "✅ Ready";
     scanResult := Some {| label := FRONT; score := JS.Digits false 97 |};
     latency := 80;
     sessionRef := Some (Session "model.onnx");
     isModelReady := true;
     isInferenceBusy := true;
     lastCall := Some 1000;
     posted := [];
     console := [] |}.

(** The model loads and the first frame takes the gate. *)
Definition first_frame : list event :=
  [AssetsLoaded (Some "model.onnx"); CameraFrame 0 landscape].

Lemma gate_released_on_every_exit_witness :
  let st := exec create_ok resize_ok engine_throws initial first_frame in
  isInferenceBusy st = true /\
  isInferenceBusy (step create_ok resize_ok engine_throws st (RunPosted 5 300)) = false.
Proof.
  split; [reflexivity|].
  destruct (gate_released_on_every_exit create_ok resize_ok engine_throws
              first_frame 5 300 eq_refl) as (_ & _ & _ & _ & H & _).
  exact H.
Defined.

Lemma single_flight_witness :
  let exec := exec create_ok resize_ok engine_throws in
  let acquires := acquires create_ok resize_ok engine_throws in
  let loaded := [AssetsLoaded (Some "model.onnx")] in
  let mid := [CameraFrame 600 landscape; RunPosted 5 300] in
  acquires (exec initial loaded) (CameraFrame 0 landscape) = true /\
  acquires (exec initial (loaded ++ CameraFrame 0 landscape :: mid)%list)
    (CameraFrame 1200 landscape) = true /\
  exists mid1 ev mid2,
    mid = (mid1 ++ ev :: mid2)%list /\
    releases create_ok resize_ok engine_throws
      (exec initial (loaded ++ CameraFrame 0 landscape :: mid1)%list) ev = true.
Proof.
  split; [reflexivity|]. split; [reflexivity|].
  exact (proj1 (proj2 (single_flight create_ok resize_ok engine_throws))
           initial [AssetsLoaded (Some "model.onnx")] (CameraFrame 0 landscape)
           [CameraFrame 600 landscape; RunPosted 5 300] (CameraFrame 1200 landscape)
           eq_refl eq_refl).
Defined.

Lemma engine_failure_frame_witness :
  let r := performInference engine_throws 100 220 [] running in
  sessionRef running = Some (Session "model.onnx") /\
  engine_throws (Session "model.onnx") (feeds []) = Throw "session.run failed" /\
  scanResult (snd r) = scanResult running /\
  latency (snd r) = 80 /\
  isInferenceBusy (snd r) = false.
Proof.
  split; [reflexivity|]. split; [reflexivity|].
  destruct (engine_failure_frame engine_throws (Session "model.onnx")
              "session.run failed" 100 220 [] running eq_refl eq_refl)
    as (_ & _ & Hres & Hlat & _ & _ & _ & _ & _ & Hbusy).
  exact (conj Hres (conj Hlat Hbusy)).
Defined.

Lemma failed_resize_drops_frame_witness :
  let st := with_isInferenceBusy false running in
  resize_throws landscape (resizeOptions landscape) = Throw "unsupported pixel format" /\
  isInferenceBusy (snd (frameProcessor resize_throws 1600 landscape st)) = false /\
  posted (snd (frameProcessor resize_throws 1600 landscape st)) = [].
Proof.
  split; [reflexivity|].
  destruct (failed_resize_drops_frame create_ok resize_throws engine_throws
              1600 landscape
              (with_isInferenceBusy false running)
              (or_intror (ex_intro _ "unsupported pixel format" eq_refl)))
    as (_ & Hbusy & Hposted & _).
  exact (conj Hbusy Hposted).
Defined.

Lemma detection_published_witness :
  let data := [0; 0; 0; 0; 0.97; 0.2]%float in
  let r := performInference (engine data) 100 220 [] running in
  sessionRef running = Some (Session "model.onnx") /\
  engine data (Session "model.onnx") (feeds []) = Normal [("output0", data)] /\
  JS.index data 4 = Some 0.97%float /\
  JS.index data 5 = Some 0.2%float /\
  scanResult (snd r) = Some {| label := FRONT; score := JS.Digits false 97 |} /\
  scanResult (snd r) <> None.
Proof.
  repeat (split; [reflexivity|]).
  apply (detection_published (engine [0; 0; 0; 0; 0.97; 0.2]%float)
           (Session "model.onnx") "output0" [0; 0; 0; 0; 0.97; 0.2]%float []
           0.97%float 0.2%float 100 220 [] running
           eq_refl eq_refl eq_refl eq_refl).
  reflexivity.
Defined.

(** The values the specification lists: a score of 0.97 with class id
    0.2 gives FRONT at 97; 0.9501 with 0.49 gives FRONT at 95; 0.80
    gives nothing; and neither does 0.95 itself, the comparison being
    strict. *)
Example detection_examples :
  detection [0; 0; 0; 0; 0.97; 0.2]%float
  = Some {| label := FRONT; score := JS.Digits false 97 |} /\
  detection [0; 0; 0; 0; 0.9501; 0.49]%float
  = Some {| label := FRONT; score := JS.Digits false 95 |} /\
  detection [0; 0; 0; 0; 0.80; 1.0]%float = None /\
  detection [0; 0; 0; 0; 0.95; 0]%float = None /\
  detection [0; 0; 0; 0; 0.99; 1.0]%float
  = Some {| label := BACK; score := JS.Digits false 99 |}.
Proof. repeat split; vm_compute; reflexivity. Qed.

(** C4 fails as stated.  From the same state, a three-element output
    and a throwing engine leave different states behind: the short
    output clears the published result, records the latency and logs
    nothing, as any result below the threshold does; the throwing
    engine keeps the result and the latency and logs the error. *)
Lemma short_output_is_not_an_engine_error :
  let short := snd (performInference (engine [0; 0; 0]%float) 100 220 [] running) in
  let thrown := snd (performInference engine_throws 100 220 [] running) in
  let below := snd (performInference (engine [0; 0; 0; 0; 0.5; 0]%float) 100 220 [] running) in
  scanResult thrown = Some {| label := FRONT; score := JS.Digits false 97 |} /\
  latency thrown = 80 /\
  console thrown = ["Inference Error: session.run failed"] /\
  scanResult short = None /\
  latency short = 120 /\
  console short = [] /\
  short = below.
Proof. repeat split. Qed.

(** A five-element output with a score above the threshold is even
    published, as BACK. *)
Example five_element_output :
  scanResult (snd (performInference (engine [0; 0; 0; 0; 0.99]%float) 100 220 [] running))
  = Some {| label := BACK; score := JS.Digits false 99 |}.
Proof. vm_compute. reflexivity. Qed.

Lemma short_output_completes_witness :
  let data := [0; 0; 0]%float in
  let r := performInference (engine data) 100 220 [] running in
  sessionRef running = Some (Session "model.onnx") /\
  engine data (Session "model.onnx") (feeds []) = Normal [("output0", data)] /\
  (List.length data < 6)%nat /\
  fst r = Normal tt /\
  isInferenceBusy (snd r) = false /\
  scanResult (snd r) = None.
Proof.
  split; [reflexivity|]. split; [reflexivity|].
  assert (Hlen : (List.length [0; 0; 0]%float < 6)%nat) by (cbn; lia).
  split; [exact Hlen|].
  destruct (short_output_completes (engine [0; 0; 0]%float)
              (Session "model.onnx") "output0" [0; 0; 0]%float [] 100 220 []
              running eq_refl eq_refl Hlen)
    as (Hfst & _ & Hbusy & _ & _ & Hres).
  exact (conj Hfst (conj Hbusy Hres)).
Defined.

Lemma create_fails_always evs : loads_fail create_fails evs.
Proof. intros localUri _. now exists "failed to load model". Qed.

Lemma readiness_gating_witness :
  let evs := [AssetsLoaded (Some "model.onnx"); CameraFrame 0 landscape;
              CameraFrame 600 landscape; RunPosted 5 300] in
  let st := exec create_fails resize_ok engine_throws initial evs in
  isModelReady st = false /\
  posted st = [] /\
  modelStatus st = "❌ Error".
Proof.
  destruct (proj1 (proj2 (proj2 (proj2
              (readiness_gating create_fails resize_ok engine_throws))))
              [AssetsLoaded (Some "model.onnx"); CameraFrame 0 landscape;
               CameraFrame 600 landscape; RunPosted 5 300]
              (create_fails_always _))
    as (Hr & _ & Hp & _ & _ & _ & Hm).
  refine (conj Hr (conj Hp (Hm _))).
  exists "model.onnx". now left.
Defined.

(** Ten frames, 400 ms apart (scenario A of the specification). *)
Definition ten_frames : list Z := [0; 400; 800; 1200; 1600; 2000; 2400; 2800; 3200; 3600].

Lemma rate_limited_witness :
  fst (sampled ten_frames initial)
  = [true; false; true; false; true; false; true; false; true; false] /\
  ten_frames = ([0; 400] ++ 800 :: [1200; 1600; 2000; 2400; 2800; 3200; 3600])%list /\
  (nth 2 (fst (sampled ten_frames initial)) false = true <-> 500 <= 800 - 0) /\
  lastCall (snd (sampled [0; 400; 800] initial)) = Some 800.
Proof.
  split; [reflexivity|]. split; [reflexivity|].
  destruct (proj2 (proj2 (proj2 (rate_limited ten_frames)))
              [0; 400] 800 [1200; 1600; 2000; 2400; 2800; 3200; 3600] eq_refl)
    as (Hiff & _ & Hlast).
  exact (conj Hiff Hlast).
Defined.




Lemma modelReady_monotone_witness :
  let st := exec create_ok resize_ok engine_throws initial first_frame in
  isModelReady st = true /\
  isModelReady
    (exec create_ok resize_ok engine_throws st
       [RunPosted 5 300; AssetsLoaded None; CameraFrame 900 landscape]) = true.
Proof.
  split; [reflexivity|].
  exact (proj2 (proj2 (proj2 (modelReady_monotone create_ok resize_ok engine_throws)))
           (exec create_ok resize_ok engine_throws initial first_frame)
           [RunPosted 5 300; AssetsLoaded None; CameraFrame 900 landscape]
           eq_refl).
Defined.

(** * Further concrete runs *)

(** An engine that answers by the buffer it is fed. *)
Definition engine_by_buffer
  : InferenceSession -> list (string * Tensor) -> completion Outputs :=
  fun _ fed =>
    match fed with
    | [(_, {| tensor_data := [] |})] =>
        Normal [("output0", [1; 2; 3; 4; 0.97; 0.2]%float)]
    | _ =>
        Normal [("scores", [9; 9; 9; 9; 0.97; 0.2; 7]%float); ("extra", [])]
    end.

(** The model has loaded and the gate is free. *)
Definition idle : State := with_isInferenceBusy false running.

(** A call holds the gate and waits for the JS thread. *)
Definition waiting : State := with_posted [[Byte.x10]] running.

Lemma frames_dropped_while_busy_witness :
  let evs := [CameraFrame 1600 landscape; CameraFrame 2200 landscape] in
  isInferenceBusy waiting = true /\
  forallb is_frame evs = true /\
  exec create_ok resize_ok engine_throws waiting evs = with_lastCall (Some 2200) waiting.
Proof.
  split; [reflexivity|]. split; [reflexivity|].
  exact (frames_dropped_while_busy create_ok resize_ok engine_throws
           [CameraFrame 1600 landscape; CameraFrame 2200 landscape]
           waiting eq_refl eq_refl).
Defined.

Lemma frames_keep_view_witness :
  let evs := [CameraFrame 1600 landscape; CameraFrame 2200 landscape] in
  forallb is_frame evs = true /\
  render 1920 (Some (BackCamera "0"))
    (exec create_ok resize_throws engine_throws idle evs)
  = render 1920 (Some (BackCamera "0")) idle.
Proof.
  split; [reflexivity|].
  exact (proj1 (frames_keep_view create_ok resize_throws engine_throws
                  1920 (Some (BackCamera "0"))
                  [CameraFrame 1600 landscape; CameraFrame 2200 landscape]
                  idle eq_refl)).
Defined.

Lemma frame_within_interval_ignored_witness :
  let st' :=
    exec create_ok resize_ok engine_throws
      (step create_ok resize_ok engine_throws waiting (CameraFrame 1600 landscape))
      [RunPosted 1610 1700] in
  admits TARGET_FPS 1600 (lastCall waiting) = true /\
  isInferenceBusy st' = false /\
  step create_ok resize_ok engine_throws st' (CameraFrame 2000 landscape) = st'.
Proof.
  split; [reflexivity|]. split; [reflexivity|].
  exact (proj2 (frame_within_interval_ignored create_ok resize_ok engine_throws
                  waiting 1600 landscape [RunPosted 1610 1700] 2000 landscape
                  eq_refl eq_refl eq_refl)).
Defined.

Lemma acquisitions_spaced_witness :
  let acquires := acquires create_ok resize_ok engine_throws in
  let exec := exec create_ok resize_ok engine_throws in
  let loaded := [AssetsLoaded (Some "model.onnx")] in
  let mid := [CameraFrame 100 landscape; RunPosted 5 50; CameraFrame 300 landscape] in
  acquires (exec initial loaded) (CameraFrame 0 landscape) = true /\
  acquires (exec initial (loaded ++ CameraFrame 0 landscape :: mid)%list)
    (CameraFrame 600 landscape) = true /\
  0 + 500 <= 600.
Proof.
  split; [reflexivity|]. split; [reflexivity|].
  refine (acquisitions_spaced create_ok resize_ok engine_throws initial
            [AssetsLoaded (Some "model.onnx")] 0 landscape
            [CameraFrame 100 landscape; RunPosted 5 50; CameraFrame 300 landscape]
            600 landscape eq_refl _ eq_refl).
  intros now frame [H|[H|[H|[]]]]; inversion H; lia.
Defined.

Lemma frame_to_result_witness :
  let data := [0; 0; 0; 0; 0.97; 0.2]%float in
  resize_ok landscape (resizeOptions landscape)
  = Normal (Some [Byte.x10; Byte.x20; Byte.x30]) /\
  exec create_ok resize_ok (engine data) idle
    [CameraFrame 1600 landscape; RunPosted 1610 1700]
  = completed 90 data (with_lastCall (Some 1600) idle).
Proof.
  split; [reflexivity|].
  exact (frame_to_result create_ok resize_ok (engine [0; 0; 0; 0; 0.97; 0.2]%float)
           idle 1600 landscape [Byte.x10; Byte.x20; Byte.x30]
           (Session "model.onnx") 1610 1700
           eq_refl eq_refl eq_refl eq_refl eq_refl eq_refl).
Defined.

Lemma detection_reads_two_entries_witness :
  engine_by_buffer (Session "model.onnx") (feeds [])
  = Normal [("output0", [1; 2; 3; 4; 0.97; 0.2]%float)] /\
  engine_by_buffer (Session "model.onnx") (feeds [Byte.x10])
  = Normal [("scores", [9; 9; 9; 9; 0.97; 0.2; 7]%float); ("extra", [])] /\
  scanResult (snd (performInference engine_by_buffer 0 10 [] running))
  = scanResult (snd (performInference engine_by_buffer 50 90 [Byte.x10] idle)).
Proof.
  split; [reflexivity|]. split; [reflexivity|].
  exact (detection_reads_two_entries engine_by_buffer running idle
           (Session "model.onnx") (Session "model.onnx") [] [Byte.x10]
           "output0" "scores" [1; 2; 3; 4; 0.97; 0.2]%float
           [9; 9; 9; 9; 0.97; 0.2; 7]%float [] [("extra", [])]
           0 10 50 90 eq_refl eq_refl eq_refl eq_refl eq_refl eq_refl).
Defined.

Lemma failure_keeps_view_witness :
  sessionRef running = Some (Session "model.onnx") /\
  engine_throws (Session "model.onnx") (feeds []) = Throw "session.run failed" /\
  render 1920 (Some (BackCamera "0"))
    (snd (performInference engine_throws 100 220 [] running))
  = render 1920 (Some (BackCamera "0")) running.
Proof.
  split; [reflexivity|]. split; [reflexivity|].
  exact (failure_keeps_view engine_throws 1920 (Some (BackCamera "0"))
           (Session "model.onnx") 100 220 [] running eq_refl
           (or_introl (ex_intro _ "session.run failed" eq_refl))).
Defined.

Lemma completion_view_witness :
  let data := [0; 0; 0; 0; 0.5; 0]%float in
  sessionRef running = Some (Session "model.onnx") /\
  engine data (Session "model.onnx") (feeds []) = Normal [("output0", data)] /\
  option_map hintText
    (render 1920 (Some (BackCamera "0"))
       (snd (performInference (engine data) 100 220 [] running)))
  = Some "ALIGN ID CARD".
Proof.
  split; [reflexivity|]. split; [reflexivity|].
  rewrite (completion_view (engine [0; 0; 0; 0; 0.5; 0]%float) 1920 (BackCamera "0")
             (Session "model.onnx") "output0" [0; 0; 0; 0; 0.5; 0]%float []
             100 220 [] running eq_refl eq_refl).
  reflexivity.
Defined.

Lemma overlay_taller_than_window_witness :
  (pixel_count 1080 <? CARD_HEIGHT (pixel_count 1920))%float = true.
Proof.
  exact (proj2 (overlay_taller_than_window 1920 1080 (BackCamera "0") initial
                  ltac:(lia) ltac:(lia) ltac:(lia))).
Defined.

Lemma latency_of_a_run_witness :
  let evs := (first_frame ++ [RunPosted 5 300])%list in
  clocks_ordered evs /\
  0 <= latency (exec create_ok resize_ok (engine [0; 0; 0; 0; 0.97; 0.2]%float) initial evs).
Proof.
  assert (H : clocks_ordered (first_frame ++ [RunPosted 5 300])%list).
  { intros t0 t1 [H|[H|[H|[]]]]; inversion H; lia. }
  split; [exact H|].
  exact (proj2 (latency_of_a_run create_ok resize_ok
                  (engine [0; 0; 0; 0; 0.97; 0.2]%float)
                  (first_frame ++ [RunPosted 5 300])%list) H).
Defined.

Lemma console_holds_errors_witness :
  console
    (exec create_ok resize_ok (engine [0; 0; 0; 0; 0.97; 0.2]%float) initial
       (first_frame ++ [RunPosted 5 300])%list)
  = [].
Proof.
  refine (proj2 (console_holds_errors create_ok resize_ok
                   (engine [0; 0; 0; 0; 0.97; 0.2]%float)
                   (first_frame ++ [RunPosted 5 300])%list) _ _).
  - intros frame options e. discriminate.
  - intros session fed. now exists ("output0", [0; 0; 0; 0; 0.97; 0.2]%float), [].
Defined.

Lemma stuck_without_session_witness :
  let st := with_posted [[]] (with_sessionRef None running) in
  let st' :=
    exec create_ok resize_ok engine_throws st
      [RunPosted 5 300; CameraFrame 1600 landscape; AssetsLoaded (Some "model.onnx");
       CameraFrame 2200 landscape; RunPosted 2210 2300] in
  sessionRef st = None /\
  isInferenceBusy st = true /\
  posted st = [[]] /\
  isInferenceBusy st' = true /\
  posted st' = [].
Proof.
  split; [reflexivity|]. split; [reflexivity|]. split; [reflexivity|].
  destruct (stuck_without_session create_ok resize_ok engine_throws
              (with_posted [[]] (with_sessionRef None running)) [] 5 300
              [CameraFrame 1600 landscape; AssetsLoaded (Some "model.onnx");
               CameraFrame 2200 landscape; RunPosted 2210 2300]
              eq_refl eq_refl eq_refl) as (Hb & Hp & _).
  exact (conj Hb Hp).
Defined.
